(** * DL-MAKER: the licence server, its sheet adapter and their properties

    A shallow embedding of [src/server.py] and [src/google_sheets.py].
    Python values, exceptions, text and calendar dates are modelled in
    module [Py]; the sheet adapter in module [google_sheets]; the cache, the
    filter engine, the status check, the statistics and the barcode handler
    in module [server].  The theorems follow the three modules.

    Text is modelled by [string], one byte per character: [upper] and
    [lower] act on the ASCII letters and leave every other character alone;
    [isdigit] accepts the ASCII digits and the three superscript digits
    below 256, as Python does, and [int] accepts the ASCII digits only. *)

From Stdlib Require Import ZArith String Ascii List Bool Lia Sorted.
From stdpp Require Import base option list gmap strings fin_maps.

Local Open Scope string_scope.
Local Open Scope Z_scope.

(* ===================================================================== *)
(** ** Python values, exceptions, text and dates                          *)
(* ===================================================================== *)

Module Py.

(** Exceptions the modelled code can meet. *)
Inductive exn : Type :=
  | AttributeError
  | TypeError
  | ValueError
  | HttpError
  | OSError.

(** The outcome of an expression that may raise. *)
Inductive result (A : Type) : Type :=
  | Ok (a : A)
  | Raise (e : exn).
Arguments Ok {A} a.
Arguments Raise {A} e.

(** Sequencing: an exception cuts the rest short ([x ← m; k]). *)
#[global] Instance result_ret : MRet result := fun A a => Ok a.
#[global] Instance result_bind : MBind result := fun A B k m =>
  match m with
  | Ok a => k a
  | Raise e => Raise e
  end.

Definition is_Ok {A : Type} (m : result A) : Prop := exists a, m = Ok a.

(** The values a licence dictionary holds: the adapter stores text, integers
    and booleans. *)
Inductive value : Type :=
  | VStr (s : string)
  | VInt (n : Z)
  | VBool (b : bool).

(** Truth value of an object ([if x:], [not x]). *)
Definition truthy (v : value) : bool :=
  match v with
  | VStr s => negb (String.eqb s "")
  | VInt n => negb (n =? 0)
  | VBool b => b
  end.

#[global] Instance value_eq_dec : EqDecision value.
Proof. solve_decision. Defined.

#[global] Instance value_countable : Countable value.
Proof.
  refine (inj_countable'
    (fun v => match v with
              | VStr s => inl s
              | VInt n => inr (inl n)
              | VBool b => inr (inr b)
              end)
    (fun x => match x with
              | inl s => VStr s
              | inr (inl n) => VInt n
              | inr (inr b) => VBool b
              end) _).
  intros []; reflexivity.
Defined.

(** The key under which a dictionary files an object: [True] and [1], and
    [False] and [0], are equal and hash alike, so they are one key. *)
Definition dict_key (v : value) : value :=
  match v with
  | VBool b => VInt (Z.b2z b)
  | _ => v
  end.

(** [x.get(key, default)]. *)
Definition dict_get `{Countable K} {V : Type} (d : gmap K V) (key : K) (dflt : V) : V :=
  match d !! key with
  | Some v => v
  | None => dflt
  end.

(** A licence record: a dictionary from field names to values. *)
Abbreviation license := (gmap string value).

(** *** Text *)

Definition in_range (lo hi c : ascii) : bool :=
  ((N_of_ascii lo <=? N_of_ascii c) && (N_of_ascii c <=? N_of_ascii hi))%N.

Definition is_lower_letter (c : ascii) : bool := in_range "a" "z" c.
Definition is_upper_letter (c : ascii) : bool := in_range "A" "Z" c.
Definition is_digit (c : ascii) : bool := in_range "0" "9" c.

Definition upper_char (c : ascii) : ascii :=
  if is_lower_letter c then ascii_of_N (N_of_ascii c - 32) else c.

Definition lower_char (c : ascii) : ascii :=
  if is_upper_letter c then ascii_of_N (N_of_ascii c + 32) else c.

Fixpoint map_string (f : ascii -> ascii) (s : string) : string :=
  match s with
  | EmptyString => EmptyString
  | String c r => String (f c) (map_string f r)
  end.

(** [s.upper()] and [s.lower()]. *)
Definition upper (s : string) : string := map_string upper_char s.
Definition lower (s : string) : string := map_string lower_char s.

(** [v.upper()] and [v.lower()] on an arbitrary object: only text has the
    method. *)
Definition str_method (f : string -> string) (v : value) : result string :=
  match v with
  | VStr s => Ok (f s)
  | _ => Raise AttributeError
  end.

(** [needle in hay] on text. *)
Fixpoint contains (needle hay : string) : bool :=
  String.prefix needle hay ||
  match hay with
  | EmptyString => false
  | String _ rest => contains needle rest
  end.

Fixpoint all_chars (p : ascii -> bool) (s : string) : bool :=
  match s with
  | EmptyString => true
  | String c r => p c && all_chars p r
  end.

(** The characters [isdigit] counts as digits: 0 to 9, and the superscripts
    two, three and one (characters 178, 179 and 185). *)
Definition is_digit_like (c : ascii) : bool :=
  is_digit c
  || (N_of_ascii c =? 178)%N || (N_of_ascii c =? 179)%N
  || (N_of_ascii c =? 185)%N.

(** [s.isdigit()]: at least one character, all of them digits. *)
Definition isdigit (s : string) : bool :=
  negb (String.eqb s "") && all_chars is_digit_like s.

Definition digit_val (c : ascii) : Z := Z.of_N (N_of_ascii c - 48).

Fixpoint int_of_digits (acc : Z) (s : string) : Z :=
  match s with
  | EmptyString => acc
  | String c r => int_of_digits (10 * acc + digit_val c) r
  end.

(** The value of a text of decimal digits. *)
Definition int_of_str (s : string) : Z := int_of_digits 0 s.

(** The most digits [int] converts (the interpreter's default limit). *)
Definition int_max_str_digits : nat := 4300.

(** [int(s)] for text that satisfies [isdigit]: a superscript digit is no
    decimal digit, and a text of more digits than the limit is refused. *)
Definition int_str (s : string) : result Z :=
  if all_chars is_digit s && (String.length s <=? int_max_str_digits)%nat
  then Ok (int_of_str s)
  else Raise ValueError.

(** *** Calendar dates ([datetime.date]) *)

Record date : Type := mkdate { year : Z; month : Z; day : Z }.

Definition is_leap (y : Z) : bool :=
  (y mod 4 =? 0) && (negb (y mod 100 =? 0) || (y mod 400 =? 0)).

Definition days_in_month (y m : Z) : Z :=
  if (m =? 2) && is_leap y then 29
  else nth (Z.to_nat m) [0; 31; 28; 31; 30; 31; 30; 31; 31; 30; 31; 30; 31] 0.

Definition days_before_year (y : Z) : Z :=
  let y1 := y - 1 in y1 * 365 + y1 / 4 - y1 / 100 + y1 / 400.

Definition days_before_month (y m : Z) : Z :=
  nth (Z.to_nat m) [0; 0; 31; 59; 90; 120; 151; 181; 212; 243; 273; 304; 334] 0
  + (if (2 <? m) && is_leap y then 1 else 0).

(** [d.toordinal()]: 1 for 0001-01-01. *)
Definition toordinal (d : date) : Z :=
  days_before_year (year d) + days_before_month (year d) (month d) + day d.

(** [(a - b).days]. *)
Definition days_between (a b : date) : Z := toordinal a - toordinal b.

(** [date(y, m, d)]: the constructor refuses what is not a calendar day. *)
Definition make_date (y m d : Z) : result date :=
  if (1 <=? y) && (y <=? 9999) && (1 <=? m) && (m <=? 12)
     && (1 <=? d) && (d <=? days_in_month y m)
  then Ok (mkdate y m d)
  else Raise ValueError.

(** *** [datetime.strptime(s, '%Y-%m-%d').date()]

    The library compiles the format to the regular expression

      (\d\d\d\d)-(1[0-2]|0[1-9]|[1-9])-(3[01]|[12]\d|0[1-9]|[1-9]| [1-9])

    matches it at the start of the text, and refuses text that the match
    does not use up.  Each directive below lists the ways it can match,
    in the order the alternatives are tried, with what is left. *)

Definition re_Y (s : list ascii) : list (Z * list ascii) :=
  match s with
  | a :: b :: c :: d :: r =>
      if is_digit a && is_digit b && is_digit c && is_digit d
      then [(1000 * digit_val a + 100 * digit_val b + 10 * digit_val c
             + digit_val d, r)]
      else []
  | _ => []
  end.

Definition re_two (p1 p2 : ascii -> bool) (f : ascii -> ascii -> Z)
    (s : list ascii) : list (Z * list ascii) :=
  match s with
  | a :: b :: r => if p1 a && p2 b then [(f a b, r)] else []
  | _ => []
  end.

Definition re_one (p : ascii -> bool) (s : list ascii) : list (Z * list ascii) :=
  match s with
  | a :: r => if p a then [(digit_val a, r)] else []
  | _ => []
  end.

Definition two_digits (a b : ascii) : Z := 10 * digit_val a + digit_val b.

Definition re_m (s : list ascii) : list (Z * list ascii) :=
  re_two (Ascii.eqb "1") (in_range "0" "2") two_digits s
  ++ re_two (Ascii.eqb "0") (in_range "1" "9") two_digits s
  ++ re_one (in_range "1" "9") s.

Definition re_d (s : list ascii) : list (Z * list ascii) :=
  re_two (Ascii.eqb "3") (in_range "0" "1") two_digits s
  ++ re_two (in_range "1" "2") is_digit two_digits s
  ++ re_two (Ascii.eqb "0") (in_range "1" "9") two_digits s
  ++ re_one (in_range "1" "9") s
  ++ re_two (Ascii.eqb " ") (in_range "1" "9") (fun _ b => digit_val b) s.

Definition re_lit (c : ascii) (s : list ascii) : list (unit * list ascii) :=
  match s with
  | a :: r => if Ascii.eqb a c then [(tt, r)] else []
  | _ => []
  end.

(** All matches of the whole expression, first choice first. *)
Definition re_Ymd (s : list ascii) : list (Z * Z * Z * list ascii) :=
  '(y, s1) ← re_Y s;
  '(_, s2) ← re_lit "-" s1;
  '(m, s3) ← re_m s2;
  '(_, s4) ← re_lit "-" s3;
  '(d, s5) ← re_d s4;
  [(y, m, d, s5)].

Definition strptime_Ymd (s : string) : result date :=
  match re_Ymd (list_ascii_of_string s) with
  | (y, m, d, []) :: _ => make_date y m d
  | _ => Raise ValueError
  end.

(** [strptime] on an arbitrary object: anything but text is a type error. *)
Definition strptime (v : value) : result date :=
  match v with
  | VStr s => strptime_Ymd s
  | _ => Raise TypeError
  end.

End Py.

(* ===================================================================== *)
(** ** google_sheets.py: the sheet adapter                                *)
(* ===================================================================== *)

Module google_sheets.
Import Py.

(** One row of the sheet: the cells it has, as text. *)
Abbreviation row := (list string).

(** What [values().get(spreadsheetId, range).execute()] answers: an
    exception, or a result object whose ['values'] entry may be absent. *)
Definition sheets_api : Type := string -> string -> result (option (list row)).

(** Calls that leave the process. *)
Inductive io_event : Type :=
  | ValuesGet (spreadsheet_id range_name : string)
  | OpenFile (name : string).

(** The handle [authenticate] builds. *)
Inductive sheets_service : Type := SheetsV4.

Record GoogleSheetsConnector : Type := {
  credentials_file : string;
  service : option sheets_service   (* [None] when authentication failed *)
}.

Definition get_sheet_data (api : sheets_api) (self : GoogleSheetsConnector)
    (spreadsheet_id range_name : string) : list row * list io_event :=
  match service self with
  | None => ([], [])
  | Some _ =>
      (match api spreadsheet_id range_name with
       | Ok result =>
           let values := default [] result in
           match values with
           | [] => []
           | _ => values
           end
       | Raise _ => []
       end,
       [ValuesGet spreadsheet_id range_name])
  end.

(** [row[k] if len(row) > k else ''] *)
Definition cell (r : row) (k : nat) : string :=
  if (k <? length r)%nat then nth k r "" else "".

(** The dictionary built for data row number [i] (counted from 0). *)
Definition license_data (i : nat) (r : row) : license :=
  list_to_map
    [ ("id", VInt (Z.of_nat i + 1));
      ("firstName", VStr (cell r 1));
      ("lastName", VStr (cell r 2));
      ("middleInitial", VStr (cell r 3));
      ("dateOfBirth", VStr (cell r 4));
      ("state", VStr (cell r 5));
      ("licenseNumber", VStr (cell r 6));
      ("city", VStr (cell r 7));
      ("street", VStr (cell r 8));
      ("zipCode", VStr (cell r 9));
      ("height", VStr (cell r 10));
      ("weight", VInt (if (11 <? length r)%nat && isdigit (nth 11 r "")
                       then int_of_str (nth 11 r "") else 0));
      ("eyeColor", VStr (cell r 12));
      ("hairColor", VStr (cell r 13));
      ("expiration", VStr (cell r 14));
      ("licenseClass", VStr "");
      ("restrictions", VStr "");
      ("organDonor", VBool false) ].

(** The weight entry as it is evaluated: [int] may raise on a cell that
    [isdigit] accepted. *)
Definition weight_of (r : row) : result Z :=
  if (11 <? length r)%nat && isdigit (nth 11 r "")
  then int_str (nth 11 r "")
  else Ok 0.

(** The body of the [try] block: evaluating the dictionary either raises,
    at the weight, or gives [license_data]. *)
Definition build_license (i : nat) (r : row) : result license :=
  _ ← weight_of r;
  Ok (license_data i r).

(** The loop [for i, row in enumerate(data_rows)], entered at index [i]: an
    empty row is passed over; every other row appends its dictionary,
    unless building it raised, in which case the row is passed over too. *)
Fixpoint map_rows (i : nat) (data_rows : list row) : list license :=
  match data_rows with
  | [] => []
  | [] :: rest => map_rows (S i) rest
  | r :: rest =>
      match build_license i r with
      | Ok license_data => license_data :: map_rows (S i) rest
      | Raise _ => map_rows (S i) rest
      end
  end.

Definition get_license_data (api : sheets_api) (self : GoogleSheetsConnector)
    (spreadsheet_id : string) : list license * list io_event :=
  let '(raw_data, io) := get_sheet_data api self spreadsheet_id "Sheet1!A1:Z1000" in
  match raw_data with
  | [] => ([], io)
  | headers :: data_rows => (map_rows 0 data_rows, io)
  end.

(** *** Construction and authentication *)

(** The credentials object the loader returns. *)
Inductive credentials : Type := ServiceAccount.

(** The Google client library: loading a service-account file and
    building the service, either of which may raise. *)
Record google_client : Type := {
  from_service_account_file : string -> result credentials;
  build : credentials -> result sheets_service
}.

(** [authenticate]: the service, or [None] when anything raised. *)
Definition authenticate (client : google_client) (file : string)
    : option sheets_service :=
  match from_service_account_file client file with
  | Ok creds =>
      match build client creds with
      | Ok svc => Some svc
      | Raise _ => None
      end
  | Raise _ => None
  end.

(** [GoogleSheetsConnector(credentials_file)]. *)
Definition connect (client : google_client) (file : string)
    : GoogleSheetsConnector :=
  {| credentials_file := file; service := authenticate client file |}.

End google_sheets.

(* ===================================================================== *)
(** ** server.py: cache, filters, status check, statistics, barcode        *)
(* ===================================================================== *)

Module server.
Import Py.
Export google_sheets.

(** *** Configuration and process-wide state *)

Record config : Type := {
  GOOGLE_SHEET_ID : string;
  CREDENTIALS_FILE : string;
  CACHE_TIMEOUT : Z;      (* seconds *)
  DEBUG : bool
}.

(** The three module globals.  A clock reading is a number of microseconds,
    the resolution of [datetime]. *)
Record globals : Type := {
  sheets_connector : option GoogleSheetsConnector;
  cached_data : option (list license);
  cache_timestamp : option Z
}.

(** What one call finds outside the process: two readings of the clock (on
    entry, and when a fetched set is stored), the sheet service, and what
    opening and decoding [sample_data.json] gives. *)
Record world : Type := {
  clock : Z;
  clock_at_store : Z;
  api : sheets_api;
  sample_data_json : result (list license)
}.

(** [bool(x)] for a list. *)
Definition nonempty {A : Type} (l : list A) : bool :=
  match l with
  | [] => false
  | _ => true
  end.

(** [(now - cache_timestamp).total_seconds() < CONFIG["CACHE_TIMEOUT"]],
    on exact numbers. *)
Definition within_timeout (CONFIG : config) (now ts : Z) : bool :=
  now - ts <? CACHE_TIMEOUT CONFIG * 1000000.

(** The entry the opening test of [get_license_data] serves, if any. *)
Definition cache_hit (CONFIG : config) (force_refresh : bool) (w : world)
    (g : globals) : option (list license) :=
  if negb force_refresh then
    match cached_data g, cache_timestamp g with
    | Some data, Some ts =>
        if nonempty data && within_timeout CONFIG (clock w) ts
        then Some data else None
    | _, _ => None
    end
  else None.

Definition store (g : globals) (data : list license) (ts : Z) : globals :=
  {| sheets_connector := sheets_connector g;
     cached_data := Some data;
     cache_timestamp := Some ts |}.

(** The fallback: [sample_data.json]. *)
Definition load_sample_data (w : world) (g : globals)
    : list license * globals :=
  match sample_data_json w with
  | Ok data => (data, store g data (clock_at_store w))
  | Raise _ => ([], g)
  end.

(** [get_license_data(force_refresh)]: the record set returned, the globals
    afterwards, and the outside calls made, in order. *)
Definition get_license_data (CONFIG : config) (force_refresh : bool)
    (w : world) (g : globals) : list license * globals * list io_event :=
  match cache_hit CONFIG force_refresh w g with
  | Some data => (data, g, [])
  | None =>
      match sheets_connector g with
      | Some conn =>
          if negb (String.eqb (GOOGLE_SHEET_ID CONFIG) "YOUR_SHEET_ID_HERE")
          then
            let '(licenses, io) :=
              google_sheets.get_license_data (api w) conn (GOOGLE_SHEET_ID CONFIG) in
            if nonempty licenses
            then (licenses, store g licenses (clock_at_store w), io)
            else
              let '(data, g') := load_sample_data w g in
              (data, g', (io ++ [OpenFile "sample_data.json"])%list)
          else
            let '(data, g') := load_sample_data w g in
            (data, g', [OpenFile "sample_data.json"])
      | None =>
          let '(data, g') := load_sample_data w g in
          (data, g', [OpenFile "sample_data.json"])
      end
  end.

(** *** Responses *)

(** The values the handlers put in a response body. *)
Inductive json : Type :=
  | JBool (b : bool)
  | JInt (n : Z)
  | JStr (s : string)
  | JTime (t : Z)            (* the text of [t.isoformat()] *)
  | JErr (e : exn)           (* the text of [str(e)] *)
  | JRefreshed (n : nat).    (* the text "Data refreshed. n licenses loaded." *)

(** A response: the fields of the JSON object and the HTTP status. *)
Definition response : Type := list (string * json) * Z.

Definition jsonify (body : list (string * json)) : response := (body, 200).

(** [/api/refresh]: the entry is dropped, then the set is fetched anew. *)
Definition clear (g : globals) : globals :=
  {| sheets_connector := sheets_connector g;
     cached_data := None;
     cache_timestamp := None |}.

Definition refresh_data (CONFIG : config) (w : world) (now : Z) (g : globals)
    : response * globals * list io_event :=
  let '(data, g', io) := get_license_data CONFIG true w (clear g) in
  (jsonify [ ("success", JBool true);
             ("message", JRefreshed (length data));
             ("count", JInt (Z.of_nat (length data)));
             ("timestamp", JTime now) ],
   g', io).

(** *** Status check *)

Definition check_license_status (license_data : license) (status : string)
    (today : date) : bool :=
  let exp_date_str := dict_get license_data "expiration" (VStr "") in
  if negb (truthy exp_date_str) then false
  else
    match strptime exp_date_str with
    | Ok exp_date =>
        let days_until := days_between exp_date today in
        if String.eqb status "valid" then 30 <? days_until
        else if String.eqb status "expiring"
             then (0 <=? days_until) && (days_until <=? 30)
        else if String.eqb status "expired" then days_until <? 0
        else true
    | Raise _ => false
    end.

(** *** Filters *)

(** [[item for item in data if p(item)]] where the test may raise. *)
Fixpoint comprehension {A : Type} (p : A -> result bool) (data : list A)
    : result (list A) :=
  match data with
  | [] => Ok []
  | item :: rest =>
      b ← p item;
      kept ← comprehension p rest;
      Ok (if b : bool then item :: kept else kept)
  end.

(** The test of the search filter; [or] stops at the first field that
    matches. *)
Definition search_test (search_term : string) (item : license) : result bool :=
  first ← str_method lower (dict_get item "firstName" (VStr ""));
  if contains search_term first then Ok true
  else
    last ← str_method lower (dict_get item "lastName" (VStr ""));
    if contains search_term last then Ok true
    else
      number ← str_method lower (dict_get item "licenseNumber" (VStr ""));
      Ok (contains search_term number).

Definition state_test (state_filter : string) (item : license) : result bool :=
  code ← str_method upper (dict_get item "state" (VStr ""));
  Ok (String.eqb code (upper state_filter)).

(** [apply_filters(data, filters)]; [filters] is the query string of the
    request, [today] the date read when a status filter is applied. *)
Definition apply_filters (data : list license) (filters : gmap string string)
    (today : date) : result (list license) :=
  if decide (filters = ∅) then Ok data
  else
    let search_term := lower (dict_get filters "search" "") in
    found ←
      (if negb (String.eqb search_term "")
       then comprehension (search_test search_term) data
       else Ok data);
    let state_filter := dict_get filters "state" "" in
    in_state ←
      (if negb (String.eqb state_filter "")
       then comprehension (state_test state_filter) found
       else Ok found);
    let status_filter := dict_get filters "status" "" in
    Ok (if negb (String.eqb status_filter "")
        then List.filter
               (fun item => check_license_status item status_filter today)
               in_state
        else in_state).

(** *** Statistics *)

Record stats : Type := {
  total_licenses : Z;
  by_state : gmap value Z;
  expiring_soon : Z;
  expired : Z;
  organ_donors : Z
}.

(** One turn of the loop of [get_stats]. *)
Definition count_license (today : date) (s : stats) (license_data : license)
    : stats :=
  let state := dict_key (dict_get license_data "state" (VStr "Unknown")) in
  let by_state' := <[ state := dict_get (by_state s) state 0 + 1 ]> (by_state s) in
  let organ_donors' :=
    match license_data !! "organDonor" with
    | Some v => if truthy v then organ_donors s + 1 else organ_donors s
    | None => organ_donors s
    end in
  let exp_date_str := dict_get license_data "expiration" (VStr "") in
  let '(expired', expiring_soon') :=
    if truthy exp_date_str then
      match strptime exp_date_str with
      | Ok exp_date =>
          let days_until := days_between exp_date today in
          if days_until <? 0 then (expired s + 1, expiring_soon s)
          else if days_until <=? 30 then (expired s, expiring_soon s + 1)
          else (expired s, expiring_soon s)
      | Raise _ => (expired s, expiring_soon s)
      end
    else (expired s, expiring_soon s) in
  {| total_licenses := total_licenses s;
     by_state := by_state';
     expiring_soon := expiring_soon';
     expired := expired';
     organ_donors := organ_donors' |}.

(** The statistics [get_stats] computes from the record set. *)
Definition get_stats (data : list license) (today : date) : stats :=
  fold_left (count_license today) data
    {| total_licenses := Z.of_nat (length data);
       by_state := ∅;
       expiring_soon := 0;
       expired := 0;
       organ_donors := 0 |}.

(** *** Barcode *)

(** [/api/pdf417].  [render] stands for the encoder, the drawing and the
    base64 step: the text after ["data:image/png;base64,"], or an exception.
    The second component lists the texts handed to the encoder. *)
Definition generate_pdf417 (PDF417_AVAILABLE : bool)
    (render : string -> result string) (args : gmap string string)
    : response * list string :=
  let data := dict_get args "data" "" in
  if String.eqb data "" then
    (([("success", JBool false); ("error", JStr "No data provided")], 400), [])
  else if negb PDF417_AVAILABLE then
    (([("success", JBool false);
       ("error", JStr "PDF417 library not available")], 500), [])
  else
    match render data with
    | Ok img_base64 =>
        (jsonify [("success", JBool true);
                  ("barcode", JStr (String.append "data:image/png;base64," img_base64))],
         [data])
    | Raise e =>
        (([("success", JBool false); ("error", JErr e)], 500), [data])
    end.

(** *** Start-up *)

(** [init_google_sheets]; [path_exists] is [os.path.exists]. *)
Definition init_google_sheets (CONFIG : config) (path_exists : string -> bool)
    (client : google_client) (g : globals) : globals :=
  {| sheets_connector :=
       if path_exists (CREDENTIALS_FILE CONFIG)
       then Some (connect client (CREDENTIALS_FILE CONFIG))
       else None;
     cached_data := cached_data g;
     cache_timestamp := cache_timestamp g |}.

(** *** The list and single-record endpoints *)

(** [bool(d)] for a dictionary. *)
Definition dict_truthy (d : license) : bool := negb (bool_decide (d = ∅)).

(** [item.get('id') == license_id], [license_id] an integer: an absent
    identifier ([None]) and text never equal it, [True] equals 1 and
    [False] equals 0. *)
Definition id_equals (license_id : Z) (item : license) : bool :=
  match item !! "id" with
  | Some (VInt n) => n =? license_id
  | Some (VBool b) => Z.b2z b =? license_id
  | Some (VStr _) => false
  | None => false
  end.

(** The bodies of [/api/licenses/<id>]. *)
Inductive license_body : Type :=
  | LicenseFound (license_data : license)   (* success, license *)
  | LicenseNotFound (license_id : Z).       (* "License with ID n not found" *)

Definition get_license (CONFIG : config) (w : world) (license_id : Z)
    (g : globals) : (license_body * Z) * globals * list io_event :=
  let '(data, g', io) := get_license_data CONFIG false w g in
  match List.find (id_equals license_id) data with
  | Some license_data =>
      if dict_truthy license_data
      then ((LicenseFound license_data, 200), g', io)
      else ((LicenseNotFound license_id, 404), g', io)
  | None => ((LicenseNotFound license_id, 404), g', io)
  end.

(** The bodies of [/api/licenses]. *)
Inductive licenses_body : Type :=
  | LicensesListed (count total : nat) (timestamp : option Z)
      (source : string) (licenses : list license)
  | LicensesFailed (e : exn) (timestamp : Z).

(** [get_licenses]; [args] is the query string, [today] and [now] the
    readings of the calendar and the clock the handler may take. *)
Definition get_licenses (CONFIG : config) (w : world)
    (args : gmap string string) (today : date) (now : Z) (g : globals)
    : (licenses_body * Z) * globals * list io_event :=
  let '(data, g', io) := get_license_data CONFIG false w g in
  match apply_filters data args today with
  | Ok filtered_data =>
      ((LicensesListed (length filtered_data) (length data)
          (cache_timestamp g')
          (match sheets_connector g' with
           | Some _ => "google_sheets"
           | None => "sample_data"
           end)
          filtered_data, 200), g', io)
  | Raise e => ((LicensesFailed e now, 500), g', io)
  end.

(** *** The picture of the barcode *)

(** What [generate_pdf417] draws from the matrix the encoder returns: the
    size of the white image and the black rectangles, each given by its
    corners [x1, y1, x2, y2]. *)
Record picture : Type := {
  width : Z;
  height : Z;
  rectangles : list (Z * Z * Z * Z)
}.

Definition pixel_size : Z := 4.

(** The rectangles of one row: one for every cell that is not zero. *)
Fixpoint draw_row (y : Z) (x : Z) (cells : list Z) : list (Z * Z * Z * Z) :=
  match cells with
  | [] => []
  | bit :: rest =>
      let x1 := x * pixel_size + 20 in
      let y1 := y * pixel_size + 20 in
      (if negb (bit =? 0)
       then [(x1, y1, x1 + pixel_size, y1 + pixel_size)] else [])
      ++ draw_row y (x + 1) rest
  end%list.

Fixpoint draw_rows (y : Z) (barcode : list (list Z)) : list (Z * Z * Z * Z) :=
  match barcode with
  | [] => []
  | cells :: rest => (draw_row y 0 cells ++ draw_rows (y + 1) rest)%list
  end.

Definition draw_barcode (barcode : list (list Z)) : picture :=
  let rows := Z.of_nat (length barcode) in
  let cols := match barcode with
              | first :: _ => Z.of_nat (length first)
              | [] => 0
              end in
  {| width := cols * pixel_size + 40;
     height := rows * pixel_size + 40;
     rectangles := draw_rows 0 barcode |}.

End server.

(* ===================================================================== *)
(** ** Vocabulary of the specification                                    *)
(* ===================================================================== *)

Module spec.
Import Py server.

(** The status classes of the specification, and their names as the
    [status] parameter spells them. *)
Inductive status_class : Type := Valid | Expiring | Expired.

Definition status_name (c : status_class) : string :=
  match c with
  | Valid => "valid"
  | Expiring => "expiring"
  | Expired => "expired"
  end.

(** The classifier as the specification words it: negative is expired,
    0 to 30 is expiring, more than 30 is valid. *)
Definition classify (days_until : Z) : status_class :=
  if days_until <? 0 then Expired
  else if days_until <=? 30 then Expiring
  else Valid.

(** The date a record expires on, when its expiration field is text that
    parses; [None] for a missing, empty, non-text or unparseable field. *)
Definition parsed_expiration (r : license) : option date :=
  match r !! "expiration" with
  | Some (VStr s) =>
      match strptime_Ymd s with
      | Ok d => Some d
      | Raise _ => None
      end
  | _ => None
  end.

(** A field that, when present, holds text. *)
Definition text_field (r : license) (k : string) : Prop :=
  match r !! k with
  | Some (VStr _) | None => True
  | Some _ => False
  end.

(** A record of the data model, as far as the filters read it: names,
    licence number and state code are text. *)
Definition record (r : license) : Prop :=
  text_field r "firstName" /\ text_field r "lastName" /\
  text_field r "licenseNumber" /\ text_field r "state".

(** The state code of a record (empty when the field is missing). *)
Definition state_code (r : license) : string :=
  match r !! "state" with
  | Some (VStr s) => s
  | _ => ""
  end.



(** The identifier of a record, when it has one. *)
Definition id_of (r : license) : option Z :=
  match r !! "id" with
  | Some (VInt n) => Some n
  | _ => None
  end.

(** A row whose weight cell, if it has one that [isdigit] accepts, is made
    of decimal digits only and of no more of them than [int] converts. *)
Definition weight_converts (r : row) : bool :=
  negb ((11 <? length r)%nat && isdigit (nth 11 r ""))
  || (all_chars is_digit (nth 11 r "")
      && (String.length (nth 11 r "") <=? int_max_str_digits)%nat).

(** A row that yields a record: it is not empty and its weight converts. *)
Definition row_kept (r : row) : bool := nonempty r && weight_converts r.

(** The positions, counted from [i], of the rows that yield a record. *)
Fixpoint kept_positions (i : nat) (rows : list row) : list nat :=
  match rows with
  | [] => []
  | r :: rest =>
      if row_kept r then i :: kept_positions (S i) rest
      else kept_positions (S i) rest
  end.

(** The sum of the counts of a state-count mapping. *)
Definition sum_counts (m : gmap value Z) : Z :=
  map_fold (fun _ n acc => n + acc) 0 m.

(** The key a record is counted under by the statistics. *)
Definition state_key (r : license) : value :=
  dict_key (dict_get r "state" (VStr "Unknown")).

(** The text a record holds in a field (empty when missing or not text). *)
Definition text_of (r : license) (k : string) : string :=
  match r !! k with
  | Some (VStr s) => s
  | _ => ""
  end.




(** A record whose organ-donor field is present and true. *)
Definition is_donor (r : license) : bool :=
  match r !! "organDonor" with
  | Some v => truthy v
  | None => false
  end.

(** The number of elements that pass a test. *)
Definition count_if {A : Type} (f : A -> bool) (l : list A) : Z :=
  Z.of_nat (length (List.filter f l)).

(** The square drawn for the cell in column [col] of row [row]. *)
Definition cell_square (col row : Z) : Z * Z * Z * Z :=
  (col * 4 + 20, row * 4 + 20, col * 4 + 24, row * 4 + 24).

(** A rectangle whose corner coordinates lie between [margin] and the
    width, respectively the height, less [margin]. *)
Definition inside (p : picture) (margin : Z) (rect : Z * Z * Z * Z) : Prop :=
  let '(x1, y1, x2, y2) := rect in
  margin <= x1 /\ x1 < x2 /\ x2 <= width p - margin
  /\ margin <= y1 /\ y1 < y2 /\ y2 <= height p - margin.

(** The cache holds an entry and its timestamp together, or neither. *)
Definition paired (g : globals) : Prop :=
  cached_data g = None <-> cache_timestamp g = None.

(** What a request does to the cache: the data endpoints call
    [get_license_data] without force, the refresh endpoint refreshes. *)
Inductive request : Type :=
  | Serve
  | Refresh (now : Z).

Definition after (CONFIG : config) (w : world) (req : request) (g : globals)
    : globals :=
  match req with
  | Serve => (get_license_data CONFIG false w g).1.2
  | Refresh now => (refresh_data CONFIG w now g).1.2
  end.

(** The states a process goes through: it starts with no entry, and every
    request is served in some world. *)
Inductive reachable (CONFIG : config) (conn : option GoogleSheetsConnector)
    : globals -> Prop :=
  | reach_start :
      reachable CONFIG conn
        {| sheets_connector := conn; cached_data := None;
           cache_timestamp := None |}
  | reach_step g w req :
      reachable CONFIG conn g -> reachable CONFIG conn (after CONFIG w req g).

(** The records the sheet gives a call: those the adapter returns when a
    connector exists and the sheet id is configured, none otherwise. *)
Definition sheet_records (CONFIG : config) (w : world) (g : globals)
    : list license :=
  match sheets_connector g with
  | Some conn =>
      if String.eqb (GOOGLE_SHEET_ID CONFIG) "YOUR_SHEET_ID_HERE" then []
      else (google_sheets.get_license_data (api w) conn (GOOGLE_SHEET_ID CONFIG)).1
  | None => []
  end.

(** An outside call to the sheet service. *)
Definition is_sheet_call (e : io_event) : Prop :=
  match e with
  | ValuesGet _ _ => True
  | OpenFile _ => False
  end.

End spec.

(* ===================================================================== *)
(** ** Sample data                                                        *)
(* ===================================================================== *)

Module sample.
Import Py server.

Definition today : date := mkdate 2024 1 1.

(** A record with the given state code and expiration text. *)
Definition lic (state expiration : string) : license :=
  list_to_map [("state", VStr state); ("expiration", VStr expiration)].

(** A sheet: the header row and three data rows, the middle one empty. *)
Definition header : row := ["#"; "First"; "Last"].
Definition sheet_with_gap : list row :=
  [header; ["1"; "Ann"; "Lee"]; []; ["3"; "Bob"; "Ray"]].
Definition sheet_full : list row :=
  [header; ["1"; "Ann"; "Lee"]; ["2"; "Cy"; "Poe"]; ["3"; "Bob"; "Ray"]].

(** A sheet whose first data row has a weight cell that [isdigit] accepts
    and [int] refuses (the superscript two). *)
Definition sheet_with_bad_weight : list row :=
  [header;
   (repeat "x" 11 ++ [String (ascii_of_N 178) ""])%list;
   ["2"; "Cy"; "Poe"]].

Definition connector : GoogleSheetsConnector :=
  {| credentials_file := "credentials.json"; service := Some SheetsV4 |}.

(** A service that answers every request with the given rows. *)
Definition serving (rows : list row) : sheets_api :=
  fun _ _ => Ok (Some rows).

Definition config_300 : config :=
  {| GOOGLE_SHEET_ID := "YOUR_SHEET_ID_HERE";
     CREDENTIALS_FILE := "credentials.json";
     CACHE_TIMEOUT := 300;
     DEBUG := true |}.

(** The globals at start-up without credentials, and with an entry. *)
Definition fresh : globals :=
  {| sheets_connector := None; cached_data := None; cache_timestamp := None |}.
Definition holding (data : list license) (ts : Z) : globals :=
  {| sheets_connector := None; cached_data := Some data;
     cache_timestamp := Some ts |}.

(** The world at a clock reading, with what the sample file gives. *)
Definition at_time (t : Z) (file : result (list license)) : world :=
  {| clock := t; clock_at_store := t; api := serving [];
     sample_data_json := file |}.

End sample.

(* ===================================================================== *)
(** ** Properties of the status check                                     *)
(* ===================================================================== *)

Import Py server spec sample.

Section StatusCheck.

Implicit Types (r : license) (d today : date) (status : string).

Lemma strptime_Ymd_empty : strptime_Ymd "" = Raise ValueError.
Proof. reflexivity. Qed.

(** A record with a parsed expiration date holds non-empty text there. *)
Lemma parsed_expiration_Some r d :
  parsed_expiration r = Some d ->
  exists s, r !! "expiration" = Some (VStr s) /\ s <> "" /\ strptime_Ymd s = Ok d.
Proof.
  unfold parsed_expiration.
  destruct (r !! "expiration") as [[s| |]|] eqn:E; try discriminate.
  destruct (strptime_Ymd s) as [d'|] eqn:P; try discriminate.
  intros [= <-]. exists s. repeat split; trivial.
  intros ->. rewrite strptime_Ymd_empty in P. discriminate.
Qed.

(** With a parsed expiration date the check is the comparison its status
    selects. *)
Lemma check_license_status_parsed r d status today :
  parsed_expiration r = Some d ->
  check_license_status r status today =
    let days_until := days_between d today in
    if String.eqb status "valid" then 30 <? days_until
    else if String.eqb status "expiring"
         then (0 <=? days_until) && (days_until <=? 30)
    else if String.eqb status "expired" then days_until <? 0
    else true.
Proof.
  intros (s & E & Hs & P)%parsed_expiration_Some.
  unfold check_license_status, dict_get. rewrite E. simpl.
  apply String.eqb_neq in Hs. rewrite Hs. simpl. rewrite P. reflexivity.
Qed.

(** Without one the check fails whatever the status. *)
Lemma check_license_status_unparsed r status today :
  parsed_expiration r = None ->
  check_license_status r status today = false.
Proof.
  unfold parsed_expiration, check_license_status, dict_get.
  destruct (r !! "expiration") as [[s| |]|] eqn:E; simpl; trivial.
  - destruct (String.eqb s ""); simpl; trivial.
    destruct (strptime_Ymd s); [discriminate | trivial].
  - intros _. destruct (negb (n =? 0)); trivial.
  - intros _. destruct b; trivial.
Qed.

(** C1: for a record with a parseable expiration date and any [today], the
    status check answers by the whole-day difference: "expired" exactly when
    it is negative, "expiring" exactly when it lies in 0..30, "valid" exactly
    when it exceeds 30, so the record matches the one status the
    specification's classifier assigns; an expiration 30 days after today is
    expiring, 31 days after is valid, one day before is expired. *)
Theorem status_classifier_thresholds r d today :
  parsed_expiration r = Some d ->
  let days_until := toordinal d - toordinal today in
  (check_license_status r "expired" today = (days_until <? 0)
   /\ check_license_status r "expiring" today
      = ((0 <=? days_until) && (days_until <=? 30))
   /\ check_license_status r "valid" today = (30 <? days_until))
  /\ (forall c : status_class,
        check_license_status r (status_name c) today = true
        <-> classify days_until = c)
  /\ (toordinal d = toordinal today + 30 ->
        check_license_status r "expiring" today = true)
  /\ (toordinal d = toordinal today + 31 ->
        check_license_status r "valid" today = true)
  /\ (toordinal d = toordinal today - 1 ->
        check_license_status r "expired" today = true).
Proof.
  intros H days_until.
  assert (E : forall status, check_license_status r status today =
     if String.eqb status "valid" then 30 <? days_until
     else if String.eqb status "expiring"
          then (0 <=? days_until) && (days_until <=? 30)
     else if String.eqb status "expired" then days_until <? 0
     else true).
  { intros status. now rewrite (check_license_status_parsed r d status today H). }
  split; [|split; [|split; [|split]]].
  - rewrite !E. simpl. auto.
  - intros c. rewrite E. unfold classify.
    destruct c; simpl;
      destruct (days_until <? 0) eqn:A; destruct (days_until <=? 30) eqn:B;
      destruct (30 <? days_until) eqn:C; destruct (0 <=? days_until) eqn:D;
      simpl; split; intros; try congruence; try reflexivity; lia.
  - intros Hd. rewrite E. simpl. subst days_until. rewrite Hd.
    apply andb_true_iff. split; lia.
  - intros Hd. rewrite E. simpl. subst days_until. lia.
  - intros Hd. rewrite E. simpl. subst days_until. lia.
Qed.

Lemma status_classifier_thresholds_witness :
  parsed_expiration (lic "CA" "2024-01-31") = Some (mkdate 2024 1 31)
  /\ check_license_status (lic "CA" "2024-01-31") "expiring" today = true
  /\ check_license_status (lic "CA" "2024-01-31") "valid" today = false.
Proof.
  assert (H : parsed_expiration (lic "CA" "2024-01-31") = Some (mkdate 2024 1 31))
    by (vm_compute; reflexivity).
  destruct (status_classifier_thresholds _ _ today H) as ((_ & _ & Hv) & _ & Hb & _).
  split; [exact H | split].
  - apply Hb. vm_compute. reflexivity.
  - rewrite Hv. vm_compute. reflexivity.
Defined.

(** The three boundary dates of the specification, run through the parser
    and the calendar. *)
Example boundary_dates_2024 :
  check_license_status (lic "CA" "2024-01-31") "expiring" today = true
  /\ check_license_status (lic "CA" "2024-02-01") "valid" today = true
  /\ check_license_status (lic "CA" "2024-02-01") "expiring" today = false
  /\ check_license_status (lic "CA" "2023-12-31") "expired" today = true
  /\ check_license_status (lic "CA" "2024-01-01") "expiring" today = true.
Proof. vm_compute. auto. Qed.

(** C7: a record whose expiration field is empty, missing, not text or does
    not parse matches no status: the check is false for every status value,
    so the record is in no status-filtered list. *)
Theorem unparseable_matches_no_status r status today :
  parsed_expiration r = None ->
  check_license_status r status today = false
  /\ forall data : list license,
       ~ In r (List.filter (fun item => check_license_status item status today) data).
Proof.
  intros H. pose proof (check_license_status_unparsed r status today H) as F.
  split; [exact F|].
  intros data [_ Hin]%filter_In. congruence.
Qed.

Lemma unparseable_matches_no_status_witness :
  parsed_expiration (lic "CA" "2024-02-30") = None
  /\ check_license_status (lic "CA" "2024-02-30") "valid" today = false.
Proof.
  assert (H : parsed_expiration (lic "CA" "2024-02-30") = None)
    by (vm_compute; reflexivity).
  split; [exact H|].
  exact (proj1 (unparseable_matches_no_status _ "valid" today H)).
Defined.

(** Empty and missing expiration fields, and one that is not text. *)
Example unparsed_fields :
  parsed_expiration (lic "CA" "") = None
  /\ parsed_expiration (∅ : license) = None
  /\ parsed_expiration ({[ "expiration" := VInt 20240101 ]} : license) = None
  /\ parsed_expiration (lic "CA" "01/31/2024") = None.
Proof. vm_compute. auto. Qed.

(** C10: for a status value other than "valid", "expiring" and "expired" the
    check is true on every record with a parseable expiration date, so used
    as a filter it keeps exactly the records whose expiration parses and
    drops those whose expiration is empty or unparseable. *)
Theorem unknown_status_passes_parseable status today :
  status <> "valid" -> status <> "expiring" -> status <> "expired" ->
  (forall r d, parsed_expiration r = Some d ->
     check_license_status r status today = true)
  /\ (forall r, parsed_expiration r = None ->
        check_license_status r status today = false)
  /\ forall data : list license,
       List.filter (fun item => check_license_status item status today) data
       = List.filter (fun item => bool_decide (is_Some (parsed_expiration item))) data.
Proof.
  intros Hv Hg Hx.
  assert (P : forall r d, parsed_expiration r = Some d ->
                check_license_status r status today = true).
  { intros r d H. rewrite (check_license_status_parsed r d status today H).
    apply String.eqb_neq in Hv, Hg, Hx. simpl. now rewrite Hv, Hg, Hx. }
  split; [exact P | split].
  - intros r H. now apply check_license_status_unparsed.
  - intros data. apply filter_ext. intros r.
    destruct (parsed_expiration r) as [d|] eqn:E.
    + rewrite (P r d E). symmetry. apply bool_decide_eq_true. eauto.
    + rewrite (check_license_status_unparsed r status today E).
      symmetry. apply bool_decide_eq_false. intros [? ?]. discriminate.
Qed.

Lemma unknown_status_passes_parseable_witness :
  "anything" <> "valid" /\ "anything" <> "expiring" /\ "anything" <> "expired"
  /\ List.filter (fun item => check_license_status item "anything" today)
       [lic "CA" "2099-01-01"; lic "NY" ""; lic "TX" "2020-01-01"]
     = [lic "CA" "2099-01-01"; lic "TX" "2020-01-01"].
Proof.
  assert (Hv : "anything" <> "valid") by discriminate.
  assert (Hg : "anything" <> "expiring") by discriminate.
  assert (Hx : "anything" <> "expired") by discriminate.
  repeat (split; [assumption|]).
  destruct (unknown_status_passes_parseable "anything" today Hv Hg Hx) as (_ & _ & F).
  rewrite F. vm_compute. reflexivity.
Defined.

End StatusCheck.

(* ===================================================================== *)
(** ** Properties of the text operations                                  *)
(* ===================================================================== *)

Section Text.








Example upper_examples :
  upper "ny" = "NY" /\ upper "Ca" = upper "cA" /\ upper "N.Y. 1" = "N.Y. 1"
  /\ lower "SMITH-Jones" = "smith-jones".
Proof. vm_compute. auto. Qed.

End Text.

(* ===================================================================== *)
(** ** Properties of the filters                                          *)
(* ===================================================================== *)

Section Filters.

Implicit Types (data res : list license) (filters : gmap string string).

Lemma comprehension_sublist {A} (p : A -> result bool) (l res : list A) :
  comprehension p l = Ok res -> sublist res l.
Proof.
  revert res. induction l as [|x l IH]; simpl; intros res.
  - intros [= <-]. constructor.
  - destruct (p x) as [b|]; [simpl | discriminate].
    destruct (comprehension p l) as [kept|]; [simpl | discriminate].
    intros [= <-]. destruct b.
    + apply sublist_skip. now apply IH.
    + apply sublist_cons. now apply IH.
Qed.

Lemma filter_sublist {A} (f : A -> bool) (l : list A) :
  sublist (List.filter f l) l.
Proof.
  induction l as [|x l IH]; simpl.
  - constructor.
  - destruct (f x); [now apply sublist_skip | now apply sublist_cons].
Qed.

Lemma sublist_Forall_keep {A} (P : A -> Prop) (l k : list A) :
  sublist l k -> Forall P k -> Forall P l.
Proof.
  induction 1 as [|x l k _ IH|x l k _ IH]; intros HF; trivial.
  - inversion HF; subst. constructor; auto.
  - inversion HF; subst. auto.
Qed.

(** A test that never raises makes the comprehension an ordinary filter. *)
Lemma comprehension_total {A} (p : A -> result bool) (f : A -> bool)
    (P : A -> Prop) (l : list A) :
  (forall x, P x -> p x = Ok (f x)) ->
  Forall P l -> comprehension p l = Ok (List.filter f l).
Proof.
  intros Hp. induction 1 as [|x l Hx _ IH]; simpl; trivial.
  rewrite (Hp x Hx), IH. simpl. now destruct (f x).
Qed.

Lemma text_field_get r k :
  text_field r k -> exists s, dict_get r k (VStr "") = VStr s.
Proof.
  unfold text_field, dict_get.
  destruct (r !! k) as [[s| |]|]; intros H; try contradiction; eauto.
Qed.

Lemma search_test_total search_term r :
  record r -> exists b, search_test search_term r = Ok b.
Proof.
  intros (Hf & Hl & Hn & _). unfold search_test.
  destruct (text_field_get _ _ Hf) as [f ->].
  destruct (text_field_get _ _ Hl) as [l ->].
  destruct (text_field_get _ _ Hn) as [n ->]. simpl.
  destruct (contains search_term (lower f)); [eauto|].
  destruct (contains search_term (lower l)); eauto.
Qed.

Lemma state_test_record s r :
  record r ->
  state_test s r = Ok (String.eqb (upper (state_code r)) (upper s)).
Proof.
  intros (_ & _ & _ & Hs). unfold state_test, state_code, dict_get.
  unfold text_field in Hs.
  destruct (r !! "state") as [[c| |]|]; try contradiction; reflexivity.
Qed.

Lemma comprehension_search_total search_term data :
  Forall record data -> is_Ok (comprehension (search_test search_term) data).
Proof.
  induction 1 as [|r data Hr _ [kept IH]]; simpl.
  - now exists [].
  - destruct (search_test_total search_term r Hr) as [b ->]. simpl.
    rewrite IH. simpl. eexists. reflexivity.
Qed.

(** Whatever the parameters, the records that come back come in the order
    of the input. *)
Lemma apply_filters_sublist data filters today res :
  apply_filters data filters today = Ok res -> sublist res data.
Proof.
  unfold apply_filters. destruct (decide (filters = ∅)) as [_|_].
  - intros [= <-]. reflexivity.
  - set (search_term := lower (dict_get filters "search" "")).
    set (state_filter := dict_get filters "state" "").
    set (status_filter := dict_get filters "status" "").
    destruct (if negb (String.eqb search_term "")
              then comprehension (search_test search_term) data
              else Ok data) as [found|] eqn:E1; [simpl | discriminate].
    assert (S1 : sublist found data).
    { destruct (negb (String.eqb search_term "")).
      - now apply comprehension_sublist in E1.
      - injection E1 as <-. reflexivity. }
    destruct (if negb (String.eqb state_filter "")
              then comprehension (state_test state_filter) found
              else Ok found) as [in_state|] eqn:E2; [simpl | discriminate].
    assert (S2 : sublist in_state found).
    { destruct (negb (String.eqb state_filter "")).
      - now apply comprehension_sublist in E2.
      - injection E2 as <-. reflexivity. }
    intros [= <-]. etransitivity; [|exact S1]. etransitivity; [|exact S2].
    destruct (negb (String.eqb status_filter "")); [apply filter_sublist | reflexivity].
Qed.

(** On records of the data model no filter raises. *)
Lemma apply_filters_total data filters today :
  Forall record data -> is_Ok (apply_filters data filters today).
Proof.
  intros H. unfold apply_filters. destruct (decide (filters = ∅)) as [_|_].
  - now exists data.
  - set (search_term := lower (dict_get filters "search" "")).
    set (state_filter := dict_get filters "state" "").
    assert (exists found,
      (if negb (String.eqb search_term "")
       then comprehension (search_test search_term) data
       else Ok data) = Ok found /\ Forall record found) as (found & -> & Hf).
    { destruct (negb (String.eqb search_term "")).
      - destruct (comprehension_search_total search_term data H) as [found E].
        exists found. split; trivial.
        eapply sublist_Forall_keep; [|exact H]. now apply comprehension_sublist in E.
      - eauto. }
    simpl.
    assert (exists in_state,
      (if negb (String.eqb state_filter "")
       then comprehension (state_test state_filter) found
       else Ok found) = Ok in_state) as (in_state & ->).
    { destruct (negb (String.eqb state_filter "")); [|eauto].
      eexists.
      apply (comprehension_total _
               (fun r => String.eqb (upper (state_code r)) (upper state_filter))
               record); [|exact Hf].
      intros r Hr. now apply state_test_record. }
    simpl. eexists. reflexivity.
Qed.

(** C5: with no parameter set the filter returns its input as it is; and
    whatever the parameters, the records returned are a subsequence of the
    input, in the input's order (on records of the data model a result is
    always returned). *)
Theorem no_filters_returns_input data today :
  apply_filters data ∅ today = Ok data
  /\ (forall filters res,
        apply_filters data filters today = Ok res -> sublist res data)
  /\ (forall filters,
        Forall record data -> is_Ok (apply_filters data filters today)).
Proof.
  split; [reflexivity | split].
  - intros filters res. apply apply_filters_sublist.
  - intros filters H. now apply apply_filters_total.
Qed.

Lemma no_filters_returns_input_witness :
  let data := [lic "CA" "2099-01-01"; lic "NY" ""; lic "ca" "2020-01-01"] in
  let filters : gmap string string := {[ "state" := "ca" ]} in
  apply_filters data filters today = Ok [lic "CA" "2099-01-01"; lic "ca" "2020-01-01"]
  /\ sublist [lic "CA" "2099-01-01"; lic "ca" "2020-01-01"] data
  /\ Forall record data
  /\ is_Ok (apply_filters data filters today).
Proof.
  intros data filters.
  assert (E : apply_filters data filters today
              = Ok [lic "CA" "2099-01-01"; lic "ca" "2020-01-01"])
    by (vm_compute; reflexivity).
  assert (R : Forall record data)
    by (repeat constructor; vm_compute; trivial).
  destruct (no_filters_returns_input data today) as (_ & Hsub & Htot).
  split; [exact E | split; [|split]].
  - exact (Hsub filters _ E).
  - exact R.
  - exact (Htot filters R).
Defined.






End Filters.

(* ===================================================================== *)
(** ** Properties of the statistics                                       *)
(* ===================================================================== *)

Section Statistics.

Implicit Types (m : gmap value Z) (k : value) (s : stats) (data : list license).

Lemma sum_counts_insert_fresh m k n :
  m !! k = None -> sum_counts (<[k := n]> m) = n + sum_counts m.
Proof.
  intros H. unfold sum_counts.
  rewrite (map_fold_insert_L (fun _ c acc => c + acc) 0 k n m); trivial.
  intros. lia.
Qed.

Lemma sum_counts_delete m k n :
  m !! k = Some n -> sum_counts m = n + sum_counts (delete k m).
Proof.
  intros H. unfold sum_counts.
  rewrite (map_fold_delete_L (fun _ c acc => c + acc) 0 k n m); trivial.
  intros. lia.
Qed.

(** Counting one more under a key adds one to the sum, whether the key is
    new or not. *)
Lemma sum_counts_incr m k :
  sum_counts (<[k := dict_get m k 0 + 1]> m) = sum_counts m + 1.
Proof.
  unfold dict_get. destruct (m !! k) as [n|] eqn:E.
  - rewrite <- insert_delete_eq.
    rewrite sum_counts_insert_fresh by apply lookup_delete_eq.
    rewrite (sum_counts_delete m k n E). lia.
  - rewrite sum_counts_insert_fresh by exact E. lia.
Qed.

(** One turn of the loop files the record under its state key and touches
    no other entry of the mapping, nor the total. *)
Lemma by_state_count_license today s r :
  by_state (count_license today s r)
  = <[state_key r := dict_get (by_state s) (state_key r) 0 + 1]> (by_state s).
Proof.
  unfold count_license, state_key.
  destruct (if truthy (dict_get r "expiration" (VStr "")) then _ else _).
  reflexivity.
Qed.

Lemma total_count_license today s r :
  total_licenses (count_license today s r) = total_licenses s.
Proof.
  unfold count_license.
  destruct (if truthy (dict_get r "expiration" (VStr "")) then _ else _).
  reflexivity.
Qed.

Lemma fold_count_sum today data s :
  sum_counts (by_state (fold_left (count_license today) data s))
  = sum_counts (by_state s) + Z.of_nat (length data).
Proof.
  revert s. induction data as [|r data IH]; intros s.
  - simpl. lia.
  - cbn [fold_left length]. rewrite IH, by_state_count_license, sum_counts_incr.
    lia.
Qed.

Lemma fold_count_total today data s :
  total_licenses (fold_left (count_license today) data s) = total_licenses s.
Proof.
  revert s. induction data as [|r data IH]; intros s; cbn [fold_left]; trivial.
  now rewrite IH, total_count_license.
Qed.

Lemma fold_count_key today data s k :
  dict_get (by_state (fold_left (count_license today) data s)) k 0
  = dict_get (by_state s) k 0
    + Z.of_nat (length (List.filter (fun r => bool_decide (state_key r = k)) data)).
Proof.
  revert s. induction data as [|r data IH]; intros s.
  - simpl. lia.
  - cbn [fold_left List.filter]. rewrite IH, by_state_count_license.
    unfold dict_get at 1. rewrite lookup_insert.
    destruct (decide (state_key r = k)) as [->|N].
    + rewrite bool_decide_eq_true_2 by reflexivity. cbn [length].
      fold (dict_get (by_state s) k 0). lia.
    + rewrite bool_decide_eq_false_2 by exact N.
      fold (dict_get (by_state s) k 0). lia.
Qed.

(** C8: the counts of the state mapping add up to the number of records,
    which is also the total reported; each record is counted under exactly
    one key, its state (or "Unknown"), so the count of a key is the number
    of records with that key. *)
Theorem state_counts_sum_to_total data today :
  sum_counts (by_state (get_stats data today)) = Z.of_nat (length data)
  /\ total_licenses (get_stats data today) = Z.of_nat (length data)
  /\ forall k,
       dict_get (by_state (get_stats data today)) k 0
       = Z.of_nat (length (List.filter (fun r => bool_decide (state_key r = k)) data)).
Proof.
  unfold get_stats. split; [|split].
  - rewrite fold_count_sum. cbn [by_state]. unfold sum_counts.
    rewrite map_fold_empty. lia.
  - now rewrite fold_count_total.
  - intros k. rewrite fold_count_key. cbn [by_state]. unfold dict_get.
    rewrite lookup_empty. lia.
Qed.

Example stats_of_four :
  let s := get_stats [lic "CA" "2024-01-31"; lic "NY" "2020-01-01";
                      lic "CA" ""; (∅ : license)] today in
  map_to_list (by_state s)
    = [(VStr "CA", 2); (VStr "Unknown", 1); (VStr "NY", 1)]
  /\ total_licenses s = 4 /\ expired s = 1 /\ expiring_soon s = 1
  /\ organ_donors s = 0.
Proof. vm_compute. auto 6. Qed.

End Statistics.

(* ===================================================================== *)
(** ** Properties of the sheet adapter                                    *)
(* ===================================================================== *)

Section Adapter.

Implicit Types (rows : list row) (i : nat).

Lemma id_of_license_data i (r : row) :
  id_of (license_data i r) = Some (Z.of_nat i + 1).
Proof.
  unfold id_of, license_data. now rewrite list_to_map_cons, lookup_insert_eq.
Qed.

(** Building the dictionary succeeds exactly when the weight converts, and
    then gives [license_data]. *)
Lemma build_license_kept i (r : row) :
  build_license i r
  = if weight_converts r then Ok (license_data i r) else Raise ValueError.
Proof.
  unfold build_license, weight_of, weight_converts, int_str.
  destruct ((11 <? length r)%nat && isdigit (nth 11 r "")); cbn [negb orb];
    [|reflexivity].
  now destruct (all_chars is_digit (nth 11 r "")
                && (String.length (nth 11 r "") <=? int_max_str_digits)%nat).
Qed.

(** When the weight converts, [license_data] holds the converted value. *)
Lemma build_license_weight i (r : row) w :
  weight_of r = Ok w -> license_data i r !! "weight" = Some (VInt w).
Proof.
  unfold weight_of, int_str, license_data. intros H.
  repeat (rewrite list_to_map_cons;
          first [ rewrite lookup_insert_eq
                | rewrite lookup_insert_ne by discriminate ]).
  destruct ((11 <? length r)%nat && isdigit (nth 11 r "")).
  - destruct (all_chars is_digit (nth 11 r "")
              && (String.length (nth 11 r "") <=? int_max_str_digits)%nat);
      congruence.
  - congruence.
Qed.

(** One turn of the loop, by whether the row yields a record. *)
Lemma map_rows_cons i (r : row) rows :
  map_rows i (r :: rows)
  = if row_kept r then license_data i r :: map_rows (S i) rows
    else map_rows (S i) rows.
Proof.
  unfold row_kept. destruct r as [|c r]; [reflexivity|].
  cbn [map_rows nonempty andb]. rewrite build_license_kept.
  now destruct (weight_converts (c :: r)).
Qed.

(** The identifiers handed out are the positions of the rows kept, plus
    one. *)
Lemma map_rows_ids i rows :
  map id_of (map_rows i rows)
  = map (fun j => Some (Z.of_nat j + 1)) (kept_positions i rows).
Proof.
  revert i. induction rows as [|r rows IH]; intros i; trivial.
  rewrite map_rows_cons. cbn [kept_positions].
  destruct (row_kept r); [|apply IH].
  cbn [map]. now rewrite id_of_license_data, IH.
Qed.

Lemma kept_positions_bounds i rows :
  Forall (fun j => (i <= j < i + length rows)%nat) (kept_positions i rows).
Proof.
  revert i. induction rows as [|r rows IH]; intros i; cbn [kept_positions].
  - constructor.
  - assert (T : Forall (fun j => (i <= j < i + length (r :: rows))%nat)
                  (kept_positions (S i) rows)).
    { eapply Forall_impl; [apply IH|]. cbn [length]. intros j. simpl. lia. }
    destruct (row_kept r); trivial.
    constructor; trivial. cbn [length]. lia.
Qed.

Lemma kept_positions_sorted i rows :
  StronglySorted lt (kept_positions i rows).
Proof.
  revert i. induction rows as [|r rows IH]; intros i; cbn [kept_positions].
  - constructor.
  - destruct (row_kept r); [|apply IH].
    constructor; [apply IH|].
    eapply Forall_impl; [apply (kept_positions_bounds (S i) rows)|].
    intros j. simpl. lia.
Qed.

Lemma kept_positions_all i rows :
  (forall r : row, In r rows -> row_kept r = true) ->
  kept_positions i rows = seq i (length rows).
Proof.
  revert i. induction rows as [|r rows IH]; intros i H; trivial.
  cbn [kept_positions length seq].
  rewrite (H r) by now left.
  f_equal. apply IH. intros r' Hr'. apply H. now right.
Qed.

(** What the adapter returns, from what the sheet read returned. *)
Lemma get_license_data_rows (api : sheets_api) self sid :
  (google_sheets.get_license_data api self sid).1
  = match (get_sheet_data api self sid "Sheet1!A1:Z1000").1 with
    | [] => []
    | _ :: data_rows => map_rows 0 data_rows
    end.
Proof.
  unfold google_sheets.get_license_data.
  destruct (get_sheet_data api self sid "Sheet1!A1:Z1000") as [raw io].
  now destruct raw.
Qed.

(** C3, as the code has it: a record's identifier is one more than the
    position of its row among the rows after the header, counting the rows
    that yield no record (the empty ones, and those skipped because their
    weight cell passes [isdigit] but fails [int]); so identifiers increase
    strictly along the output, and when every row after the header yields
    a record they are exactly 1..N for the N records returned. *)
Theorem sheet_ids_by_position (api : sheets_api) self sid :
  let raw_data := (get_sheet_data api self sid "Sheet1!A1:Z1000").1 in
  let licenses := (google_sheets.get_license_data api self sid).1 in
  let positions := kept_positions 0 (tail raw_data) in
  map id_of licenses = map (fun j => Some (Z.of_nat j + 1)) positions
  /\ StronglySorted lt positions
  /\ ((forall r : row, In r (tail raw_data) -> row_kept r = true) ->
      map id_of licenses
        = map (fun n => Some (Z.of_nat n)) (seq 1 (length licenses))
      /\ length licenses = length (tail raw_data)).
Proof.
  intros raw_data licenses positions.
  assert (E : licenses = map_rows 0 (tail raw_data)).
  { subst licenses raw_data. rewrite get_license_data_rows.
    now destruct (get_sheet_data api self sid "Sheet1!A1:Z1000").1. }
  assert (Ids : map id_of licenses
                = map (fun j => Some (Z.of_nat j + 1)) positions).
  { rewrite E. apply map_rows_ids. }
  split; [exact Ids | split; [apply kept_positions_sorted|]].
  intros H.
  assert (P : positions = seq 0 (length (tail raw_data))).
  { subst positions. now apply kept_positions_all. }
  assert (L : length licenses = length (tail raw_data)).
  { rewrite <- (length_map id_of), Ids, length_map, P. apply length_seq. }
  split; [|exact L].
  rewrite Ids, P, L, <- seq_shift, map_map.
  apply map_ext. intros j. f_equal. lia.
Qed.

Lemma sheet_ids_by_position_witness :
  let licenses :=
    (google_sheets.get_license_data (serving sheet_full) connector "sheet").1 in
  (forall r : row, In r (tail sheet_full) -> row_kept r = true)
  /\ map id_of licenses = [Some 1; Some 2; Some 3]
  /\ length licenses = 3%nat.
Proof.
  intros licenses. subst licenses.
  assert (H : forall r : row, In r (tail sheet_full) -> row_kept r = true).
  { intros r [<- | [<- | [<- | []]]]; reflexivity. }
  destruct (sheet_ids_by_position (serving sheet_full) connector "sheet")
    as (_ & _ & D).
  destruct (D H) as [Ids L].
  split; [exact H | split].
  - rewrite Ids, L. reflexivity.
  - exact L.
Defined.

(** C3 as stated fails when a row after the header is empty: two records
    are returned, with identifiers 1 and 3. *)
Lemma sheet_ids_gap_counterexample :
  let licenses :=
    (google_sheets.get_license_data (serving sheet_with_gap) connector "sheet").1 in
  length licenses = 2%nat
  /\ map id_of licenses = [Some 1; Some 3]
  /\ map id_of licenses
     <> map (fun n => Some (Z.of_nat n)) (seq 1 (length licenses)).
Proof.
  vm_compute. repeat split. discriminate.
Qed.

(** A row whose weight cell is the superscript two is skipped like an
    empty one: the record of the next row has identifier 2. *)
Example skipped_row_leaves_gap :
  map id_of
    (google_sheets.get_license_data (serving sheet_with_bad_weight)
       connector "sheet").1
  = [Some 2].
Proof. vm_compute. reflexivity. Qed.

End Adapter.

(* ===================================================================== *)
(** ** Properties of the cache                                            *)
(* ===================================================================== *)

Section Cache.

Implicit Types (CONFIG : config) (w : world) (g : globals)
  (data : list license) (ts now : Z).

Lemma nonempty_true {A} (l : list A) : l <> [] -> nonempty l = true.
Proof. now destruct l. Qed.

(** An entry that is not empty and younger than the timeout is served as
    it is: nothing is fetched, nothing is stored. *)
Lemma get_license_data_hit CONFIG w g data ts :
  cached_data g = Some data -> data <> [] -> cache_timestamp g = Some ts ->
  clock w - ts < CACHE_TIMEOUT CONFIG * 1000000 ->
  server.get_license_data CONFIG false w g = (data, g, []).
Proof.
  intros Hd Hne Ht Hw. unfold server.get_license_data, cache_hit.
  rewrite Hd, Ht. cbn [negb]. rewrite (nonempty_true data Hne).
  unfold within_timeout. apply Z.ltb_lt in Hw. now rewrite Hw.
Qed.


(** C2, as the code has it: when the entry holds a record set that is not
    empty, two calls without force made within the timeout of the entry's
    timestamp both return that set, leave the entry as it is and make no
    outside call. *)
Theorem cached_set_served_without_fetch CONFIG w1 w2 g data ts :
  cached_data g = Some data -> data <> [] -> cache_timestamp g = Some ts ->
  clock w1 - ts < CACHE_TIMEOUT CONFIG * 1000000 ->
  clock w2 - ts < CACHE_TIMEOUT CONFIG * 1000000 ->
  let '(r1, g1, io1) := server.get_license_data CONFIG false w1 g in
  let '(r2, g2, io2) := server.get_license_data CONFIG false w2 g1 in
  r1 = data /\ io1 = [] /\ g1 = g /\ r2 = data /\ io2 = [] /\ g2 = g.
Proof.
  intros Hd Hne Ht H1 H2.
  rewrite (get_license_data_hit CONFIG w1 g data ts Hd Hne Ht H1).
  rewrite (get_license_data_hit CONFIG w2 g data ts Hd Hne Ht H2).
  repeat split.
Qed.

Lemma cached_set_served_without_fetch_witness :
  let data := [lic "CA" "2099-01-01"] in
  let g := holding data 0 in
  let w1 := at_time 1000000 (Raise OSError) in
  let w2 := at_time 299999999 (Ok []) in
  server.get_license_data config_300 false w1 g = (data, g, [])
  /\ server.get_license_data config_300 false w2 g = (data, g, []).
Proof.
  intros data g w1 w2.
  assert (Hne : data <> []) by discriminate.
  assert (H1 : clock w1 - 0 < CACHE_TIMEOUT config_300 * 1000000)
    by (vm_compute; reflexivity).
  assert (H2 : clock w2 - 0 < CACHE_TIMEOUT config_300 * 1000000)
    by (vm_compute; reflexivity).
  pose proof (cached_set_served_without_fetch config_300 w1 w2 g data 0
                eq_refl Hne eq_refl H1 H2) as T.
  destruct (server.get_license_data config_300 false w1 g) as [[r1 g1] io1].
  destruct (server.get_license_data config_300 false w2 g1) as [[r2 g2] io2] eqn:E2.
  destruct T as (-> & -> & -> & -> & -> & ->).
  split; [reflexivity | exact E2].
Defined.

(** C2 as stated fails for an entry whose record set is empty.  The first
    call, on a fresh process whose sample file holds no record, stores the
    empty set with its timestamp; the second call, well within the
    timeout, opens the file again and returns what it now holds. *)
Lemma empty_cached_set_refetched_counterexample :
  let w1 := at_time 1000000 (Ok []) in
  let w2 := at_time 2000000 (Ok [lic "CA" "2099-01-01"]) in
  let '(r1, g1, io1) := server.get_license_data config_300 false w1 fresh in
  let '(r2, g2, io2) := server.get_license_data config_300 false w2 g1 in
  cached_data g1 = Some [] /\ cache_timestamp g1 = Some 1000000
  /\ clock w2 - 1000000 < CACHE_TIMEOUT config_300 * 1000000
  /\ r1 = []
  /\ r2 = [lic "CA" "2099-01-01"]
  /\ io2 = [OpenFile "sample_data.json"].
Proof. vm_compute. repeat split. Qed.






End Cache.

(* ===================================================================== *)
(** ** Properties of the barcode handler                                  *)
(* ===================================================================== *)

Section Barcode.

(** C9: a request whose [data] parameter is missing or empty gets status
    400 and the body {success: false, error: "No data provided"}, whether
    or not the encoder is installed, and nothing is handed to it. *)
Theorem pdf417_without_data_rejected (PDF417_AVAILABLE : bool)
    (render : string -> result string) (args : gmap string string) :
  args !! "data" = None \/ args !! "data" = Some "" ->
  generate_pdf417 PDF417_AVAILABLE render args
  = (([("success", JBool false); ("error", JStr "No data provided")], 400), []).
Proof.
  intros [H | H]; unfold generate_pdf417, dict_get; now rewrite H.
Qed.

Lemma pdf417_without_data_rejected_witness :
  (∅ : gmap string string) !! "data" = None
  /\ generate_pdf417 true (fun s => Ok s) ∅
     = (([("success", JBool false); ("error", JStr "No data provided")], 400), [])
  /\ generate_pdf417 false (fun _ => Raise OSError) {[ "data" := "" ]}
     = (([("success", JBool false); ("error", JStr "No data provided")], 400), []).
Proof.
  split; [reflexivity | split].
  - apply pdf417_without_data_rejected. left. reflexivity.
  - apply pdf417_without_data_rejected. right. vm_compute. reflexivity.
Defined.

(** With data the encoder is reached when it is installed. *)
Example pdf417_with_data :
  generate_pdf417 true (fun s => Ok "iVBOR") {[ "data" := "@ANSI" ]}
  = (([("success", JBool true);
       ("barcode", JStr "data:image/png;base64,iVBOR")], 200), ["@ANSI"])
  /\ (generate_pdf417 false (fun s => Ok "iVBOR") ({[ "data" := "@ANSI" ]})).1.2
     = 500.
Proof. vm_compute. auto. Qed.

End Barcode.

(* ===================================================================== *)
(** ** Further properties of the text operations                          *)
(* ===================================================================== *)

Section TextMore.





Lemma is_lower_letter_false c :
  is_lower_letter c = false -> (N_of_ascii c < 97 \/ 122 < N_of_ascii c)%N.
Proof.
  unfold is_lower_letter, in_range. rewrite andb_false_iff, !N.leb_gt.
  change (N_of_ascii "a") with 97%N. change (N_of_ascii "z") with 122%N. lia.
Qed.











End TextMore.

(* ===================================================================== *)
(** ** Further properties of the filters                                  *)
(* ===================================================================== *)

Section FiltersMore.

Implicit Types (data res : list license) (filters : gmap string string)
  (r : license).

Lemma comprehension_all_pass {A} (p : A -> result bool) (l k : list A) :
  comprehension p l = Ok k -> Forall (fun x => p x = Ok true) k.
Proof.
  revert k. induction l as [|x l IH]; simpl; intros k.
  - intros [= <-]. constructor.
  - destruct (p x) as [b|] eqn:E; [simpl | discriminate].
    destruct (comprehension p l) as [kept|]; [simpl | discriminate].
    intros [= <-]. destruct b; auto.
Qed.

Lemma comprehension_id {A} (p : A -> result bool) (k : list A) :
  Forall (fun x => p x = Ok true) k -> comprehension p k = Ok k.
Proof.
  induction 1 as [|x k Hx _ IH]; simpl; trivial. now rewrite Hx, IH.
Qed.

Lemma filter_all_pass {A} (f : A -> bool) (l : list A) :
  Forall (fun x => f x = true) (List.filter f l).
Proof.
  induction l as [|x l IH]; simpl; [constructor|].
  destruct (f x) eqn:E; auto.
Qed.

Lemma filter_id {A} (f : A -> bool) (k : list A) :
  Forall (fun x => f x = true) k -> List.filter f k = k.
Proof.
  induction 1 as [|x k Hx _ IH]; simpl; trivial. now rewrite Hx, IH.
Qed.

(** A stage of the filter, when it is switched on by a parameter or left
    out: what passed it once passes it again, also after later stages
    have removed records. *)
Lemma stage_again {A} (active : bool) (p : A -> result bool)
    (l k k' : list A) :
  (if active then comprehension p l else Ok l) = Ok k ->
  sublist k' k ->
  (if active then comprehension p k' else Ok k') = Ok k'.
Proof.
  destruct active; trivial. intros H S. apply comprehension_id.
  eapply sublist_Forall_keep; [exact S|]. eapply comprehension_all_pass; eauto.
Qed.

(** X1: filtering is idempotent: a result, filtered again with the same
    parameters on the same day, comes back unchanged. *)
Theorem apply_filters_idempotent data filters today res :
  apply_filters data filters today = Ok res ->
  apply_filters res filters today = Ok res.
Proof.
  unfold apply_filters. destruct (decide (filters = ∅)) as [_|_]; trivial.
  set (search_term := lower (dict_get filters "search" "")).
  set (state_filter := dict_get filters "state" "").
  set (status_filter := dict_get filters "status" "").
  destruct (if negb (String.eqb search_term "")
            then comprehension (search_test search_term) data
            else Ok data) as [found|] eqn:E1; [simpl | discriminate].
  destruct (if negb (String.eqb state_filter "")
            then comprehension (state_test state_filter) found
            else Ok found) as [in_state|] eqn:E2; [simpl | discriminate].
  intros [= <-].
  set (res := if negb (String.eqb status_filter "")
              then List.filter
                     (fun item => check_license_status item status_filter today)
                     in_state
              else in_state).
  assert (S3 : sublist res in_state).
  { subst res. destruct (negb (String.eqb status_filter ""));
      [apply filter_sublist | reflexivity]. }
  assert (S2 : sublist in_state found).
  { destruct (negb (String.eqb state_filter "")).
    - now apply comprehension_sublist in E2.
    - injection E2 as <-. reflexivity. }
  rewrite (stage_again _ _ data found res E1) by (etransitivity; eauto).
  simpl. rewrite (stage_again _ _ found in_state res E2 S3). simpl.
  f_equal. subst res.
  destruct (negb (String.eqb status_filter "")); trivial.
  apply filter_id, filter_all_pass.
Qed.

Lemma apply_filters_idempotent_witness :
  let data := [lic "CA" "2099-01-01"; lic "NY" ""; lic "ca" "2020-01-01"] in
  let filters : gmap string string :=
    {[ "state" := "ca"; "status" := "expired" ]} in
  apply_filters data filters today = Ok [lic "ca" "2020-01-01"]
  /\ apply_filters [lic "ca" "2020-01-01"] filters today
     = Ok [lic "ca" "2020-01-01"].
Proof.
  intros data filters.
  assert (E : apply_filters data filters today = Ok [lic "ca" "2020-01-01"])
    by (vm_compute; reflexivity).
  split; [exact E|].
  exact (apply_filters_idempotent data filters today _ E).
Defined.




Lemma state_code_text_of r : state_code r = text_of r "state".
Proof. reflexivity. Qed.






End FiltersMore.

(* ===================================================================== *)
(** ** Further properties of the status check and the statistics          *)
(* ===================================================================== *)

Section StatusMore.

Implicit Types (r : license) (data : list license) (today : date) (s : stats).

Lemma count_if_cons {A} (f : A -> bool) x l :
  count_if f (x :: l) = (if f x then 1 else 0) + count_if f l.
Proof.
  unfold count_if. cbn [List.filter]. destruct (f x); cbn [length]; lia.
Qed.

(** A record matches as many of the three statuses as it has parsed
    expiration dates: one or none. *)
Lemma statuses_of_record r today :
  Z.b2z (check_license_status r "valid" today)
  + Z.b2z (check_license_status r "expiring" today)
  + Z.b2z (check_license_status r "expired" today)
  = Z.b2z (bool_decide (is_Some (parsed_expiration r))).
Proof.
  destruct (parsed_expiration r) as [d|] eqn:E.
  - rewrite !(check_license_status_parsed r d _ today E).
    rewrite bool_decide_eq_true_2 by eauto. simpl.
    destruct (30 <? days_between d today) eqn:A;
      destruct (0 <=? days_between d today) eqn:B;
      destruct (days_between d today <=? 30) eqn:C;
      destruct (days_between d today <? 0) eqn:D; simpl; lia.
  - rewrite !(check_license_status_unparsed r _ today E).
    rewrite bool_decide_eq_false_2; [reflexivity|].
    intros [? ?]. discriminate.
Qed.

Lemma status_counts_sum data today :
  count_if (fun r => check_license_status r "valid" today) data
  + count_if (fun r => check_license_status r "expiring" today) data
  + count_if (fun r => check_license_status r "expired" today) data
  = count_if (fun r => bool_decide (is_Some (parsed_expiration r))) data.
Proof.
  induction data as [|r data IH]; [reflexivity|].
  rewrite !count_if_cons. pose proof (statuses_of_record r today) as H.
  destruct (check_license_status r "valid" today);
    destruct (check_license_status r "expiring" today);
    destruct (check_license_status r "expired" today);
    destruct (bool_decide (is_Some (parsed_expiration r)));
    simpl in H; lia.
Qed.

(** X3: the three status filters split the records with a parseable
    expiration date: such a record matches exactly one of "valid",
    "expiring" and "expired", a record without one matches none, and the
    three filtered lists together have as many records as parse. *)
Theorem status_filters_partition data today :
  (forall r d, parsed_expiration r = Some d ->
     exists c : status_class,
       check_license_status r (status_name c) today = true
       /\ forall c', check_license_status r (status_name c') today = true
                     -> c' = c)
  /\ count_if (fun r => check_license_status r "valid" today) data
     + count_if (fun r => check_license_status r "expiring" today) data
     + count_if (fun r => check_license_status r "expired" today) data
     = count_if (fun r => bool_decide (is_Some (parsed_expiration r))) data.
Proof.
  split.
  - intros r d E. pose proof (statuses_of_record r today) as H.
    rewrite bool_decide_eq_true_2 in H by eauto.
    destruct (check_license_status r "valid" today) eqn:V;
      destruct (check_license_status r "expiring" today) eqn:G;
      destruct (check_license_status r "expired" today) eqn:X;
      simpl in H; try lia.
    + exists Valid. split; [exact V|]. intros [] ?; simpl in *; congruence.
    + exists Expiring. split; [exact G|]. intros [] ?; simpl in *; congruence.
    + exists Expired. split; [exact X|]. intros [] ?; simpl in *; congruence.
  - apply status_counts_sum.
Qed.

Lemma status_filters_partition_witness :
  parsed_expiration (lic "CA" "2024-01-31") = Some (mkdate 2024 1 31)
  /\ exists c : status_class,
       check_license_status (lic "CA" "2024-01-31") (status_name c) today = true.
Proof.
  assert (H : parsed_expiration (lic "CA" "2024-01-31") = Some (mkdate 2024 1 31))
    by (vm_compute; reflexivity).
  split; [exact H|].
  destruct (proj1 (status_filters_partition [] today) _ _ H) as (c & Hc & _).
  exists c. exact Hc.
Defined.

(** One turn of the statistics loop, counter by counter. *)
Lemma count_license_counters today s r :
  expired (count_license today s r)
    = expired s + Z.b2z (check_license_status r "expired" today)
  /\ expiring_soon (count_license today s r)
     = expiring_soon s + Z.b2z (check_license_status r "expiring" today)
  /\ organ_donors (count_license today s r)
     = organ_donors s + Z.b2z (is_donor r).
Proof.
  unfold count_license, check_license_status, is_donor.
  destruct (truthy (dict_get r "expiration" (VStr ""))); simpl.
  - destruct (strptime (dict_get r "expiration" (VStr ""))) as [d|]; simpl.
    + destruct (days_between d today <? 0) eqn:A; simpl.
      * assert ((0 <=? days_between d today) = false) as -> by lia. simpl.
        repeat split; try lia.
        destruct (r !! "organDonor") as [v|]; [destruct (truthy v)|]; simpl; lia.
      * destruct (days_between d today <=? 30) eqn:B; simpl.
        -- assert ((0 <=? days_between d today) = true) as -> by lia. simpl.
           repeat split; try lia.
           destruct (r !! "organDonor") as [v|]; [destruct (truthy v)|]; simpl; lia.
        -- rewrite andb_false_r. simpl. repeat split; try lia.
           destruct (r !! "organDonor") as [v|]; [destruct (truthy v)|]; simpl; lia.
    + repeat split; try lia.
      destruct (r !! "organDonor") as [v|]; [destruct (truthy v)|]; simpl; lia.
  - repeat split; try lia.
    destruct (r !! "organDonor") as [v|]; [destruct (truthy v)|]; simpl; lia.
Qed.

Lemma fold_count_counters today data s :
  let s' := fold_left (count_license today) data s in
  expired s'
    = expired s + count_if (fun r => check_license_status r "expired" today) data
  /\ expiring_soon s'
     = expiring_soon s
       + count_if (fun r => check_license_status r "expiring" today) data
  /\ organ_donors s' = organ_donors s + count_if is_donor data.
Proof.
  revert s. induction data as [|r data IH]; intros s; cbn [fold_left].
  - unfold count_if. simpl. lia.
  - destruct (IH (count_license today s r)) as (E1 & E2 & E3).
    destruct (count_license_counters today s r) as (C1 & C2 & C3).
    cbv zeta in *. rewrite E1, E2, E3, C1, C2, C3, !count_if_cons.
    destruct (check_license_status r "expired" today);
      destruct (check_license_status r "expiring" today);
      destruct (is_donor r); simpl; lia.
Qed.

(** X4: the statistics agree with the status filter: the "expired" count is
    the number of records the status check accepts as "expired", the
    "expiring_soon" count the number it accepts as "expiring", the donor
    count the number of records whose organ-donor field is true; and no
    record is counted both as expired and as expiring. *)
Theorem stats_agree_with_status_check data today :
  let s := get_stats data today in
  expired s = count_if (fun r => check_license_status r "expired" today) data
  /\ expiring_soon s
     = count_if (fun r => check_license_status r "expiring" today) data
  /\ organ_donors s = count_if is_donor data
  /\ expired s + expiring_soon s <= total_licenses s.
Proof.
  intros s. subst s. unfold get_stats.
  destruct (fold_count_counters today data
              {| total_licenses := Z.of_nat (length data); by_state := ∅;
                 expiring_soon := 0; expired := 0; organ_donors := 0 |})
    as (E1 & E2 & E3).
  cbv zeta in *. cbn [expired expiring_soon organ_donors] in *.
  rewrite E1, E2, E3, fold_count_total. cbn [total_licenses].
  repeat split; try lia.
  pose proof (status_counts_sum data today) as P.
  assert (0 <= count_if (fun r => check_license_status r "valid" today) data)
    by (unfold count_if; lia).
  assert (count_if (fun r => bool_decide (is_Some (parsed_expiration r))) data
          <= Z.of_nat (length data)).
  { unfold count_if. apply inj_le, filter_length_le. }
  lia.
Qed.

End StatusMore.

(* ===================================================================== *)
(** ** Further properties of the sheet adapter and of lookup by id        *)
(* ===================================================================== *)

Section AdapterMore.

Implicit Types (rows : list row) (i k : nat) (r : row).

(** The fields of the dictionary the adapter builds. *)
Lemma license_data_lookup i r :
  let d := license_data i r in
  d !! "id" = Some (VInt (Z.of_nat i + 1))
  /\ d !! "firstName" = Some (VStr (cell r 1))
  /\ d !! "lastName" = Some (VStr (cell r 2))
  /\ d !! "state" = Some (VStr (cell r 5))
  /\ d !! "licenseNumber" = Some (VStr (cell r 6))
  /\ d !! "expiration" = Some (VStr (cell r 14))
  /\ d !! "licenseClass" = Some (VStr "")
  /\ d !! "restrictions" = Some (VStr "")
  /\ d !! "organDonor" = Some (VBool false).
Proof.
  unfold license_data. cbv zeta.
  repeat split;
    repeat (rewrite list_to_map_cons;
            first [ rewrite lookup_insert_eq; reflexivity
                  | rewrite lookup_insert_ne by discriminate ]).
Qed.

Lemma license_data_record i r : record (license_data i r).
Proof.
  destruct (license_data_lookup i r) as (_ & F & L & S & N & _).
  unfold record, text_field. cbv zeta in *. now rewrite F, L, S, N.
Qed.

Lemma map_rows_Forall (P : license -> Prop) i rows :
  (forall j r, P (license_data j r)) -> Forall P (map_rows i rows).
Proof.
  intros H. revert i. induction rows as [|r rows IH]; intros i.
  - constructor.
  - rewrite map_rows_cons. destruct (row_kept r); [|apply IH].
    constructor; [apply H | apply IH].
Qed.

Lemma adapter_Forall (P : license -> Prop) (a : sheets_api) self sid :
  (forall j r, P (license_data j r)) ->
  Forall P (google_sheets.get_license_data a self sid).1.
Proof.
  intros H. rewrite get_license_data_rows.
  destruct (get_sheet_data a self sid "Sheet1!A1:Z1000").1 as [|h rows].
  - constructor.
  - now apply map_rows_Forall.
Qed.

(** X5: whatever the sheet service answers, the names, the licence number
    and the state of every record the adapter returns are text, so
    filtering sheet data never raises, whatever the parameters. *)
Theorem sheet_data_filters_without_error (a : sheets_api) self sid filters today :
  let licenses := (google_sheets.get_license_data a self sid).1 in
  Forall record licenses
  /\ is_Ok (apply_filters licenses filters today).
Proof.
  intros licenses.
  assert (R : Forall record licenses)
    by (apply adapter_Forall, license_data_record).
  split; [exact R | now apply apply_filters_total].
Qed.

(** X6: the adapter never fills in licence class, restrictions or the donor
    flag, however many cells the row has: class and restrictions are empty
    and the flag is false in every record returned, so the statistics over
    sheet data report no organ donor. *)
Theorem sheet_data_leaves_fields_unset (a : sheets_api) self sid today :
  let licenses := (google_sheets.get_license_data a self sid).1 in
  Forall (fun d : license =>
            d !! "licenseClass" = Some (VStr "")
            /\ d !! "restrictions" = Some (VStr "")
            /\ d !! "organDonor" = Some (VBool false)) licenses
  /\ organ_donors (get_stats licenses today) = 0.
Proof.
  intros licenses.
  assert (F : Forall (fun d : license =>
            d !! "licenseClass" = Some (VStr "")
            /\ d !! "restrictions" = Some (VStr "")
            /\ d !! "organDonor" = Some (VBool false)) licenses).
  { apply adapter_Forall. intros j r.
    destruct (license_data_lookup j r) as (_ & _ & _ & _ & _ & _ & C & R & D).
    auto. }
  split; [exact F|].
  unfold get_stats.
  destruct (fold_count_counters today licenses
              {| total_licenses := Z.of_nat (length licenses); by_state := ∅;
                 expiring_soon := 0; expired := 0; organ_donors := 0 |})
    as (_ & _ & E).
  cbv zeta in E. rewrite E. cbn [organ_donors].
  unfold count_if. replace (List.filter is_donor licenses) with (@nil license);
    [reflexivity|].
  symmetry. clear E. induction F as [|d l (_ & _ & D) _ IH]; [reflexivity|].
  cbn [List.filter]. unfold is_donor at 1. rewrite D. exact IH.
Qed.

(** X7: a row that stops before the expiration column (at most 14 cells)
    gives a record with an empty expiration date, which matches no status
    and is counted neither as expired nor as expiring. *)
Theorem short_row_matches_no_status i r status today :
  (length r <= 14)%nat ->
  license_data i r !! "expiration" = Some (VStr "")
  /\ check_license_status (license_data i r) status today = false.
Proof.
  intros H.
  destruct (license_data_lookup i r) as (_ & _ & _ & _ & _ & E & _).
  cbv zeta in E. unfold cell in E.
  assert ((14 <? length r)%nat = false) as Q by (apply Nat.ltb_ge; lia).
  rewrite Q in E. split; [exact E|].
  apply check_license_status_unparsed. unfold parsed_expiration.
  now rewrite E.
Qed.

Lemma short_row_matches_no_status_witness :
  (length ["7"; "Ann"; "Lee"] <= 14)%nat
  /\ check_license_status (license_data 6 ["7"; "Ann"; "Lee"]) "valid" today
     = false.
Proof.
  assert (H : (length ["7"; "Ann"; "Lee"] <= 14)%nat) by (simpl; lia).
  split; [exact H|].
  exact (proj2 (short_row_matches_no_status 6 _ "valid" today H)).
Defined.

Lemma int_of_digits_nonneg acc (s : string) : 0 <= acc -> 0 <= int_of_digits acc s.
Proof.
  revert acc. induction s as [|c s IH]; intros acc H; cbn [int_of_digits]; trivial.
  apply IH. unfold digit_val. lia.
Qed.

(** X8: the weight of every record the adapter builds is an integer that is
    not negative; it is 0 when the row has no weight column or the cell is
    not made of digits only (a sign, a decimal point, a unit, nothing). *)
Theorem weight_is_natural i r :
  exists n, license_data i r !! "weight" = Some (VInt n)
            /\ 0 <= n
            /\ ((length r <= 11)%nat \/ isdigit (nth 11 r "") = false -> n = 0).
Proof.
  eexists. split; [|split].
  - unfold license_data.
    repeat (rewrite list_to_map_cons;
            first [ rewrite lookup_insert_eq; reflexivity
                  | rewrite lookup_insert_ne by discriminate ]).
  - destruct ((11 <? length r)%nat && isdigit (nth 11 r "")); [|lia].
    apply int_of_digits_nonneg. lia.
  - intros [H | H].
    + assert ((11 <? length r)%nat = false) as -> by (apply Nat.ltb_ge; lia).
      reflexivity.
    + rewrite H, andb_false_r. reflexivity.
Qed.

Lemma weight_is_natural_witness :
  isdigit (nth 11 (repeat "x" 11 ++ ["-70"])%list "") = false
  /\ license_data 0 (repeat "x" 11 ++ ["-70"])%list !! "weight" = Some (VInt 0).
Proof.
  assert (H : isdigit (nth 11 (repeat "x" 11 ++ ["-70"])%list "") = false)
    by reflexivity.
  split; [exact H|].
  destruct (weight_is_natural 0 (repeat "x" 11 ++ ["-70"])%list) as (n & E & _ & Z0).
  rewrite E. f_equal. f_equal. apply Z0. right. exact H.
Defined.

Lemma id_equals_license_data id i r :
  id_equals id (license_data i r) = (Z.of_nat i + 1 =? id).
Proof.
  unfold id_equals.
  destruct (license_data_lookup i r) as (E & _). cbv zeta in E. now rewrite E.
Qed.

(** No record built from position [i] on has an identifier of [i] or less. *)
Lemma find_id_below id i rows :
  id < Z.of_nat i + 1 ->
  List.find (id_equals id) (map_rows i rows) = None.
Proof.
  revert i. induction rows as [|r rows IH]; intros i H; trivial.
  rewrite map_rows_cons. destruct (row_kept r).
  - cbn [List.find]. rewrite id_equals_license_data.
    assert ((Z.of_nat i + 1 =? id) = false) as -> by lia.
    apply IH. lia.
  - apply IH. lia.
Qed.

Lemma find_id_at i k rows :
  List.find (id_equals (Z.of_nat (i + k) + 1)) (map_rows i rows)
  = match rows !! k with
    | Some r => if row_kept r then Some (license_data (i + k) r) else None
    | None => None
    end.
Proof.
  revert i k. induction rows as [|r rows IH]; intros i k.
  - destruct k; reflexivity.
  - rewrite map_rows_cons. destruct k as [|k].
    + rewrite Nat.add_0_r. cbn [lookup list_lookup].
      destruct (row_kept r).
      * cbn [List.find]. rewrite id_equals_license_data.
        now rewrite Z.eqb_refl.
      * apply find_id_below. lia.
    + replace (i + S k)%nat with (S i + k)%nat by lia.
      cbn [lookup list_lookup]. fold (rows !! k).
      destruct (row_kept r).
      * cbn [List.find]. rewrite id_equals_license_data.
        assert ((Z.of_nat i + 1 =? Z.of_nat (S i + k) + 1) = false) as ->
          by (apply Z.eqb_neq; lia).
        apply IH.
      * apply IH.
Qed.

(** X9: looking a record up by identifier inverts the numbering of the
    adapter: identifier k+1 finds the record built from the row at position
    k after the header when that row yields a record (it is not empty and
    its weight converts), and finds nothing when the row is empty, was
    skipped, or the sheet is shorter; no identifier below 1 finds a
    record. *)
Theorem find_by_id_in_sheet_data rows k id :
  List.find (id_equals (Z.of_nat k + 1)) (map_rows 0 rows)
  = match rows !! k with
    | Some r => if row_kept r then Some (license_data k r) else None
    | None => None
    end
  /\ (id < 1 -> List.find (id_equals id) (map_rows 0 rows) = None).
Proof.
  split.
  - exact (find_id_at 0 k rows).
  - intros H. apply find_id_below. lia.
Qed.

Lemma find_by_id_in_sheet_data_witness :
  0 < 1
  /\ List.find (id_equals 0) (map_rows 0 (tail sheet_with_gap)) = None
  /\ List.find (id_equals 3) (map_rows 0 (tail sheet_with_gap))
     = Some (license_data 2 ["3"; "Bob"; "Ray"])
  /\ List.find (id_equals 2) (map_rows 0 (tail sheet_with_gap)) = None
  /\ List.find (id_equals 1) (map_rows 0 (tail sheet_with_bad_weight)) = None.
Proof.
  split; [lia|].
  split; [apply (find_by_id_in_sheet_data _ 0%nat 0); lia|].
  split; [|split].
  - exact (proj1 (find_by_id_in_sheet_data (tail sheet_with_gap) 2%nat 0)).
  - exact (proj1 (find_by_id_in_sheet_data (tail sheet_with_gap) 1%nat 0)).
  - exact (proj1 (find_by_id_in_sheet_data (tail sheet_with_bad_weight) 0%nat 0)).
Defined.

End AdapterMore.

(* ===================================================================== *)
(** ** Further properties of the cache                                    *)
(* ===================================================================== *)

Section CacheMore.

Implicit Types (CONFIG : config) (w : world) (g : globals)
  (data : list license) (ts : Z).

(** The entry is served exactly when the call is not forced and the entry
    is there, not empty, and younger than the timeout. *)
Lemma cache_hit_Some CONFIG force w g data :
  cache_hit CONFIG force w g = Some data
  <-> force = false /\ cached_data g = Some data /\ data <> []
      /\ exists ts, cache_timestamp g = Some ts
                    /\ clock w - ts < CACHE_TIMEOUT CONFIG * 1000000.
Proof.
  unfold cache_hit, within_timeout. destruct force; cbn [negb].
  { split; [discriminate | intros (? & _); discriminate]. }
  destruct (cached_data g) as [d|]; [|split; [discriminate | intros (_ & ? & _); discriminate]].
  destruct (cache_timestamp g) as [ts|].
  - destruct d as [|x d]; cbn [nonempty andb].
    + split; [discriminate | intros (_ & [= <-] & N & _); now destruct N].
    + destruct (clock w - ts <? CACHE_TIMEOUT CONFIG * 1000000) eqn:T.
      * apply Z.ltb_lt in T. split.
        -- intros [= <-]. repeat split; try discriminate. eauto.
        -- intros (_ & [= <-] & _). reflexivity.
      * apply Z.ltb_ge in T. split; [discriminate|].
        intros (_ & _ & _ & ts' & [= <-] & L). lia.
  - split; [discriminate | intros (_ & _ & _ & ts & ? & _); discriminate].
Qed.

(** What a call that is not served from the cache does: the sheet's records
    if there are any, stored at once and the file left alone; otherwise
    the sample file's records, stored at once; otherwise nothing, and the
    globals stay as they were. *)
Lemma get_license_data_miss CONFIG force w g :
  cache_hit CONFIG force w g = None ->
  exists io,
    io <> []
    /\ server.get_license_data CONFIG force w g
       = match sheet_records CONFIG w g with
         | x :: l =>
             (x :: l, store g (x :: l) (clock_at_store w), io)
         | [] =>
             match sample_data_json w with
             | Ok d => (d, store g d (clock_at_store w), io)
             | Raise _ => ([], g, io)
             end
         end
    /\ (sheet_records CONFIG w g <> [] -> Forall is_sheet_call io)
    /\ (sheet_records CONFIG w g = [] -> In (OpenFile "sample_data.json") io)
    /\ ((exists e, In e io /\ is_sheet_call e) ->
        exists conn, sheets_connector g = Some conn
                     /\ service conn <> None
                     /\ GOOGLE_SHEET_ID CONFIG <> "YOUR_SHEET_ID_HERE").
Proof.
  intros M. unfold server.get_license_data, sheet_records, load_sample_data.
  rewrite M. destruct (sheets_connector g) as [conn|].
  - destruct (String.eqb (GOOGLE_SHEET_ID CONFIG) "YOUR_SHEET_ID_HERE") eqn:Q;
      cbn [negb].
    + exists [OpenFile "sample_data.json"].
      split; [discriminate|]. split; [now destruct (sample_data_json w)|].
      split; [congruence|]. split; [intros _; now left|].
      intros (e & [<- | []] & []).
    + apply String.eqb_neq in Q.
      unfold google_sheets.get_license_data, get_sheet_data.
      destruct (service conn) as [svc|] eqn:S.
      * set (raw := match api w (GOOGLE_SHEET_ID CONFIG) "Sheet1!A1:Z1000" with
                    | Ok result => match default [] result with
                                   | [] => []
                                   | _ => default [] result
                                   end
                    | Raise _ => []
                    end).
        set (licenses := match raw with
                         | [] => []
                         | _ :: data_rows => map_rows 0 data_rows
                         end).
        assert (E : (let '(raw_data, io) :=
                       (raw, [ValuesGet (GOOGLE_SHEET_ID CONFIG) "Sheet1!A1:Z1000"]) in
                     match raw_data with
                     | [] => ([], io)
                     | _ :: data_rows => (map_rows 0 data_rows, io)
                     end)
                    = (licenses, [ValuesGet (GOOGLE_SHEET_ID CONFIG) "Sheet1!A1:Z1000"])).
        { subst licenses. now destruct raw. }
        rewrite E. cbn [fst].
        destruct licenses as [|x l]; cbn [nonempty].
        -- exists [ValuesGet (GOOGLE_SHEET_ID CONFIG) "Sheet1!A1:Z1000";
                   OpenFile "sample_data.json"].
           split; [discriminate|]. split; [now destruct (sample_data_json w)|].
           split; [congruence|]. split; [intros _; right; now left|].
           intros _. exists conn. repeat split; congruence.
        -- exists [ValuesGet (GOOGLE_SHEET_ID CONFIG) "Sheet1!A1:Z1000"].
           split; [discriminate|]. split; [reflexivity|].
           split; [intros _; repeat constructor|]. split; [discriminate|].
           intros _. exists conn. repeat split; congruence.
      * cbn [fst nonempty app].
        exists [OpenFile "sample_data.json"].
        split; [discriminate|]. split; [now destruct (sample_data_json w)|].
        split; [congruence|]. split; [intros _; now left|].
        intros (e & [<- | []] & []).
  - exists [OpenFile "sample_data.json"].
    split; [discriminate|]. split; [now destruct (sample_data_json w)|].
    split; [congruence|]. split; [intros _; now left|].
    intros (e & [<- | []] & []).
Qed.

Lemma get_license_data_served CONFIG force w g data :
  cache_hit CONFIG force w g = Some data ->
  server.get_license_data CONFIG force w g = (data, g, []).
Proof. intros H. unfold server.get_license_data. now rewrite H. Qed.

(** The globals after a call are those before it, or those with the set
    returned stored at the reading of the clock. *)
Lemma get_license_data_globals CONFIG force w g :
  let '(data, g', io) := server.get_license_data CONFIG force w g in
  g' = g \/ g' = store g data (clock_at_store w).
Proof.
  destruct (cache_hit CONFIG force w g) as [d|] eqn:H.
  - rewrite (get_license_data_served _ _ _ _ _ H). now left.
  - destruct (get_license_data_miss CONFIG force w g H) as (io & _ & E & _).
    rewrite E. destruct (sheet_records CONFIG w g); [|now right].
    destruct (sample_data_json w); auto.
Qed.

(** X10: a call makes no outside call exactly when it is not forced and
    finds an entry that is not empty and younger than the timeout; it then
    returns that entry and changes nothing.  A missing, empty or expired
    entry, or force, always leads to an outside call. *)
Theorem no_outside_call_iff_fresh_entry CONFIG force w g :
  (server.get_license_data CONFIG force w g).2 = []
  <-> force = false
      /\ exists data ts,
           cached_data g = Some data /\ data <> []
           /\ cache_timestamp g = Some ts
           /\ clock w - ts < CACHE_TIMEOUT CONFIG * 1000000
           /\ server.get_license_data CONFIG force w g = (data, g, []).
Proof.
  destruct (cache_hit CONFIG force w g) as [d|] eqn:H.
  - rewrite (get_license_data_served _ _ _ _ _ H).
    apply cache_hit_Some in H as (F & D & N & ts & T & L).
    split; [|reflexivity]. intros _. split; [exact F|].
    exists d, ts. auto.
  - destruct (get_license_data_miss CONFIG force w g H) as (io & N & E & _).
    split.
    + intros Q. exfalso. apply N. rewrite E in Q.
      destruct (sheet_records CONFIG w g); [|exact Q].
      now destruct (sample_data_json w).
    + intros (F & data & ts & D & Ne & T & L & _).
      assert (cache_hit CONFIG force w g = Some data) as C
        by (apply cache_hit_Some; eauto 8).
      congruence.
Qed.

(** X11: a set that a call fetched, unless it is empty, is what the cache
    holds afterwards, stamped with the clock reading of the fetch, and a
    later unforced call within the timeout of that reading returns it
    without any outside call. *)
Theorem fetched_set_is_cached_then_served CONFIG force w1 w2 g data g1 io1 :
  server.get_license_data CONFIG force w1 g = (data, g1, io1) ->
  io1 <> [] -> data <> [] ->
  clock w2 - clock_at_store w1 < CACHE_TIMEOUT CONFIG * 1000000 ->
  cached_data g1 = Some data
  /\ cache_timestamp g1 = Some (clock_at_store w1)
  /\ server.get_license_data CONFIG false w2 g1 = (data, g1, []).
Proof.
  intros E Nio Nd T.
  assert (G : g1 = store g data (clock_at_store w1)).
  { destruct (cache_hit CONFIG force w1 g) as [d|] eqn:H.
    - rewrite (get_license_data_served _ _ _ _ _ H) in E.
      injection E as _ _ <-. now destruct Nio.
    - destruct (get_license_data_miss CONFIG force w1 g H) as (io & _ & E' & _).
      rewrite E' in E. destruct (sheet_records CONFIG w1 g).
      + destruct (sample_data_json w1); injection E as <- <- _; trivial.
        now destruct Nd.
      + now injection E as <- <- _. }
  subst g1. cbn [store cached_data cache_timestamp].
  split; [reflexivity | split; [reflexivity|]].
  now apply (get_license_data_hit CONFIG w2 _ data (clock_at_store w1)).
Qed.

Lemma fetched_set_is_cached_then_served_witness :
  let data := [lic "CA" "2099-01-01"] in
  let w1 := at_time 1000000 (Ok data) in
  let w2 := at_time 300999999 (Raise OSError) in
  server.get_license_data config_300 false w2
    (store fresh data 1000000) = (data, store fresh data 1000000, []).
Proof.
  intros data w1 w2.
  assert (E : server.get_license_data config_300 false w1 fresh
              = (data, store fresh data 1000000, [OpenFile "sample_data.json"]))
    by reflexivity.
  assert (T : clock w2 - clock_at_store w1 < CACHE_TIMEOUT config_300 * 1000000)
    by (vm_compute; reflexivity).
  refine (proj2 (proj2 (fetched_set_is_cached_then_served config_300 false w1 w2
            fresh data _ _ E _ _ T))); discriminate.
Defined.

(** X12: when the sample file cannot be read and the sheet gives no record
    (no connector, no sheet id, failed authentication, failed request, or
    no filled row), a call never changes the globals, and unless it is
    served from the cache it returns no record: an old entry survives a
    failed fetch, also a forced one. *)
Theorem failed_fetch_keeps_globals CONFIG force w g e :
  sample_data_json w = Raise e ->
  sheet_records CONFIG w g = [] ->
  let '(data, g', io) := server.get_license_data CONFIG force w g in
  g' = g /\ (io <> [] -> data = []).
Proof.
  intros Hs Hn.
  destruct (cache_hit CONFIG force w g) as [d|] eqn:H.
  - rewrite (get_license_data_served _ _ _ _ _ H). split; [reflexivity|].
    intros N. now destruct N.
  - destruct (get_license_data_miss CONFIG force w g H) as (io & _ & E & _).
    rewrite E, Hn, Hs. auto.
Qed.

Lemma failed_fetch_keeps_globals_witness :
  let g := holding [lic "CA" "2099-01-01"] 0 in
  let w := at_time 400000000 (Raise OSError) in
  sample_data_json w = Raise OSError
  /\ sheet_records config_300 w g = []
  /\ server.get_license_data config_300 false w g
     = ([], g, [OpenFile "sample_data.json"]).
Proof.
  intros g w.
  assert (Hs : sample_data_json w = Raise OSError) by reflexivity.
  assert (Hn : sheet_records config_300 w g = []) by reflexivity.
  split; [exact Hs | split; [exact Hn|]].
  pose proof (failed_fetch_keeps_globals config_300 false w g OSError Hs Hn) as T.
  assert (I : (server.get_license_data config_300 false w g).2
              = [OpenFile "sample_data.json"]) by reflexivity.
  destruct (server.get_license_data config_300 false w g) as [[data g'] io].
  cbn [snd] in I. subst io. destruct T as [-> D].
  rewrite D by discriminate. reflexivity.
Defined.

(** X13: the order of the sources.  In a call that is not served from the
    cache: when the sheet gives records they are returned and stored, and
    the sample file is not opened; when it gives none the sample file is
    opened and its records, if it can be read, are returned.  The sheet
    service is called only when a connector exists, its authentication
    succeeded and a sheet id is configured. *)
Theorem sheet_first_then_sample_file CONFIG force w g :
  let '(data, g', io) := server.get_license_data CONFIG force w g in
  io <> [] ->
  (sheet_records CONFIG w g <> [] ->
     data = sheet_records CONFIG w g
     /\ ~ In (OpenFile "sample_data.json") io
     /\ cached_data g' = Some data
     /\ cache_timestamp g' = Some (clock_at_store w))
  /\ (sheet_records CONFIG w g = [] ->
        In (OpenFile "sample_data.json") io
        /\ data = match sample_data_json w with
                  | Ok d => d
                  | Raise _ => []
                  end)
  /\ ((exists ev, In ev io /\ is_sheet_call ev) ->
      exists conn, sheets_connector g = Some conn
                   /\ service conn <> None
                   /\ GOOGLE_SHEET_ID CONFIG <> "YOUR_SHEET_ID_HERE").
Proof.
  destruct (cache_hit CONFIG force w g) as [d|] eqn:H.
  - rewrite (get_license_data_served _ _ _ _ _ H). intros N. now destruct N.
  - destruct (get_license_data_miss CONFIG force w g H)
      as (io & N & E & Hsheet & Hfile & Hcall).
    rewrite E. destruct (sheet_records CONFIG w g) as [|x l] eqn:S.
    + destruct (sample_data_json w); intros _;
        (split; [intros F; now destruct F | split; [auto | exact Hcall]]).
    + intros _. split; [|split; [discriminate | exact Hcall]].
      intros _. repeat split.
      intros I. assert (F := Hsheet ltac:(discriminate)).
      rewrite Forall_forall in F. apply list_elem_of_In in I. exact (F _ I).
Qed.

Lemma sheet_first_then_sample_file_witness :
  let g := {| sheets_connector := Some connector; cached_data := None;
              cache_timestamp := None |} in
  let cfg := {| GOOGLE_SHEET_ID := "sheet-1"; CREDENTIALS_FILE := "c.json";
                CACHE_TIMEOUT := 300; DEBUG := false |} in
  let w := {| clock := 5; clock_at_store := 7; api := serving sheet_full;
              sample_data_json := Ok [lic "CA" "2099-01-01"] |} in
  (server.get_license_data cfg false w g).2 <> []
  /\ sheet_records cfg w g <> []
  /\ (server.get_license_data cfg false w g).1.1 = sheet_records cfg w g
  /\ ~ In (OpenFile "sample_data.json") (server.get_license_data cfg false w g).2.
Proof.
  intros g cfg w.
  pose proof (sheet_first_then_sample_file cfg false w g) as T.
  assert (I : (server.get_license_data cfg false w g).2 <> [])
    by (vm_compute; discriminate).
  assert (S : sheet_records cfg w g <> []) by (vm_compute; discriminate).
  destruct (server.get_license_data cfg false w g) as [[data g'] io].
  cbn [fst snd] in *.
  destruct (T I) as (A & _). destruct (A S) as (D & F & _). auto.
Defined.

Lemma after_globals CONFIG w req g :
  after CONFIG w req g = g
  \/ after CONFIG w req g = clear g
  \/ exists data ts, after CONFIG w req g = store g data ts.
Proof.
  destruct req as [|now]; unfold after.
  - pose proof (get_license_data_globals CONFIG false w g) as H.
    destruct (server.get_license_data CONFIG false w g) as [[data g'] io].
    cbn [fst snd]. destruct H as [-> | ->]; eauto.
  - unfold refresh_data.
    pose proof (get_license_data_globals CONFIG true w (clear g)) as H.
    destruct (server.get_license_data CONFIG true w (clear g)) as [[data g'] io].
    cbn [fst snd]. destruct H as [-> | ->]; eauto.
Qed.

(** X14: in every state a process reaches by serving requests, the cache
    holds an entry and its timestamp together or neither, and the
    connector is the one set at start-up: no request replaces it. *)
Theorem reachable_cache_is_paired CONFIG conn g :
  reachable CONFIG conn g ->
  paired g /\ sheets_connector g = conn.
Proof.
  induction 1 as [|g w req _ [P C]].
  - split; [unfold paired; cbn; tauto | reflexivity].
  - destruct (after_globals CONFIG w req g) as [-> | [-> | (data & ts & ->)]].
    + auto.
    + split; [unfold paired; cbn; tauto | exact C].
    + split; [|exact C]. unfold paired. cbn. split; discriminate.
Qed.

Lemma reachable_cache_is_paired_witness :
  let g1 := after config_300 (at_time 9 (Ok [lic "CA" "2099-01-01"])) Serve fresh in
  let g2 := after config_300 (at_time 20 (Raise OSError)) (Refresh 20) g1 in
  reachable config_300 None g2
  /\ paired g2 /\ sheets_connector g2 = None.
Proof.
  intros g1 g2.
  assert (R : reachable config_300 None g2)
    by (apply reach_step, reach_step, reach_start).
  split; [exact R|]. exact (reachable_cache_is_paired config_300 None g2 R).
Defined.

End CacheMore.

(* ===================================================================== *)
(** ** Properties of start-up and of the endpoints                        *)
(* ===================================================================== *)

Section Endpoints.

Implicit Types (CONFIG : config) (w : world) (g : globals)
  (data : list license) (args : gmap string string).

Lemma get_license_data_connector CONFIG force w g :
  sheets_connector (server.get_license_data CONFIG force w g).1.2
  = sheets_connector g.
Proof.
  pose proof (get_license_data_globals CONFIG force w g) as H.
  destruct (server.get_license_data CONFIG force w g) as [[data g'] io].
  cbn [fst snd]. now destruct H as [-> | ->].
Qed.

(** A connector without a service never reaches the sheet. *)
Lemma no_service_no_sheet_call CONFIG force w g conn :
  sheets_connector g = Some conn -> service conn = None ->
  forall ev, In ev (server.get_license_data CONFIG force w g).2 ->
             ~ is_sheet_call ev.
Proof.
  intros Hc Hs ev I S.
  destruct (cache_hit CONFIG force w g) as [d|] eqn:H.
  - rewrite (get_license_data_served _ _ _ _ _ H) in I. destruct I.
  - destruct (get_license_data_miss CONFIG force w g H)
      as (io & _ & E & _ & _ & Hcall).
    rewrite E in I.
    assert (I' : In ev io).
    { destruct (sheet_records CONFIG w g); [|exact I].
      now destruct (sample_data_json w). }
    destruct Hcall as (conn' & Hc' & Hs' & _); [eauto|]. congruence.
Qed.

(** X15: when the credentials file exists but authentication fails (the
    file cannot be loaded, or the service cannot be built), start-up still
    installs a connector; no call ever reaches the sheet service, and the
    list endpoint labels its data "google_sheets" all the same. *)
Theorem failed_authentication_never_reads_sheet CONFIG path_exists client g :
  path_exists (CREDENTIALS_FILE CONFIG) = true ->
  ((exists e, from_service_account_file client (CREDENTIALS_FILE CONFIG) = Raise e)
   \/ (exists creds e,
         from_service_account_file client (CREDENTIALS_FILE CONFIG) = Ok creds
         /\ build client creds = Raise e)) ->
  let g0 := init_google_sheets CONFIG path_exists client g in
  sheets_connector g0 <> None
  /\ forall w force args today now,
       (forall ev, In ev (server.get_license_data CONFIG force w g0).2 ->
                   ~ is_sheet_call ev)
       /\ match (get_licenses CONFIG w args today now g0).1.1.1 with
          | LicensesListed _ _ _ source _ => source = "google_sheets"
          | LicensesFailed _ _ => True
          end.
Proof.
  intros Hp Hauth g0.
  assert (A : authenticate client (CREDENTIALS_FILE CONFIG) = None).
  { unfold authenticate.
    destruct Hauth as [[e ->] | (creds & e & -> & ->)]; reflexivity. }
  assert (C : sheets_connector g0
              = Some (connect client (CREDENTIALS_FILE CONFIG))).
  { subst g0. unfold init_google_sheets. cbn. now rewrite Hp. }
  split; [congruence|].
  intros w force args today now. split.
  - eapply no_service_no_sheet_call; [exact C | exact A].
  - unfold get_licenses.
    pose proof (get_license_data_connector CONFIG false w g0) as K.
    destruct (server.get_license_data CONFIG false w g0) as [[data g'] io].
    cbn [fst snd] in K.
    destruct (apply_filters data args today); cbn; trivial.
    now rewrite K, C.
Qed.

Lemma failed_authentication_never_reads_sheet_witness :
  let client := {| from_service_account_file := fun _ => Raise OSError;
                   build := fun _ => Ok SheetsV4 |} in
  let cfg := {| GOOGLE_SHEET_ID := "sheet-1"; CREDENTIALS_FILE := "c.json";
                CACHE_TIMEOUT := 300; DEBUG := false |} in
  let g0 := init_google_sheets cfg (fun _ => true) client fresh in
  sheets_connector g0 <> None
  /\ forall ev,
       In ev (server.get_license_data cfg true
                (at_time 1 (Ok [lic "CA" "2099-01-01"])) g0).2 ->
       ~ is_sheet_call ev.
Proof.
  intros client cfg g0.
  destruct (failed_authentication_never_reads_sheet cfg (fun _ => true) client
              fresh eq_refl (or_introl (ex_intro _ OSError eq_refl)))
    as [N F].
  split; [exact N|].
  exact (proj1 (F (at_time 1 (Ok [lic "CA" "2099-01-01"])) true ∅ today 0)).
Defined.

Lemma id_equals_truthy id (r : license) :
  id_equals id r = true -> dict_truthy r = true.
Proof.
  unfold id_equals, dict_truthy. intros H.
  apply negb_true_iff, bool_decide_eq_false. intros ->.
  rewrite lookup_empty in H. discriminate.
Qed.

(** X16: the single-record endpoint answers 200 exactly when some record of
    the current set has the identifier asked for, and then returns the
    first such record; otherwise it answers 404 naming the identifier.  The
    truth test on the record found never turns a match into a 404. *)
Theorem get_license_found_iff CONFIG w id g :
  let data := (server.get_license_data CONFIG false w g).1.1 in
  let '((body, status), g', io) := get_license CONFIG w id g in
  (status = 200 <-> exists r, In r data /\ id_equals id r = true)
  /\ (status = 200 \/ status = 404)
  /\ (status = 200 ->
      exists r, body = LicenseFound r
                /\ List.find (id_equals id) data = Some r)
  /\ (status = 404 -> body = LicenseNotFound id).
Proof.
  unfold get_license.
  destruct (server.get_license_data CONFIG false w g) as [[data g'] io].
  cbn [fst snd].
  destruct (List.find (id_equals id) data) as [r|] eqn:F.
  - pose proof (find_some _ _ F) as [I E].
    rewrite (id_equals_truthy id r E).
    repeat split; eauto; try discriminate.
  - repeat split; eauto; try discriminate.
    intros (r & I & E). pose proof (find_none _ _ F r I). congruence.
Qed.

(** X17: the list endpoint changes the cache and calls outside exactly as
    [get_license_data] does.  When it answers 200, the list is what the
    filters return, [count] is its length, [total] the length of the whole
    set, [count] is at most [total], and the timestamp is that of the
    cache after the call.  It answers 500 only when a parameter is set and
    some record holds a filtered field that is not text. *)
Theorem get_licenses_envelope CONFIG w args today now g :
  let '(data, g1, io1) := server.get_license_data CONFIG false w g in
  let '((body, status), g', io) := get_licenses CONFIG w args today now g in
  g' = g1 /\ io = io1
  /\ match body with
     | LicensesListed count total ts source listed =>
         status = 200
         /\ apply_filters data args today = Ok listed
         /\ count = length listed /\ total = length data
         /\ (count <= total)%nat
         /\ ts = cache_timestamp g1
     | LicensesFailed e t =>
         status = 500 /\ t = now
         /\ args <> ∅ /\ ~ Forall record data
     end.
Proof.
  unfold get_licenses.
  destruct (server.get_license_data CONFIG false w g) as [[data g1] io1].
  destruct (apply_filters data args today) as [listed|e] eqn:E.
  - repeat split; trivial.
    apply apply_filters_sublist in E. now apply sublist_length.
  - repeat split; trivial.
    + intros ->. discriminate.
    + intros R. destruct (apply_filters_total data args today R) as [l L].
      congruence.
Qed.

End Endpoints.

(* ===================================================================== *)
(** ** Further properties of the barcode handler                          *)
(* ===================================================================== *)

Section BarcodeMore.

(** X18: the barcode endpoint answers 400 exactly when the data parameter
    is missing or empty, 200 exactly when there is data, the encoder is
    installed and rendering succeeds, and 500 otherwise.  The encoder is
    handed the request's data, once, and only when there is data and it is
    installed; the body says success exactly with status 200. *)
Theorem pdf417_status_cases (PDF417_AVAILABLE : bool)
    (render : string -> result string) (args : gmap string string) :
  let data := dict_get args "data" "" in
  let '((body, status), calls) := generate_pdf417 PDF417_AVAILABLE render args in
  (status = 400 <-> data = "")
  /\ (status = 200 <->
      data <> "" /\ PDF417_AVAILABLE = true /\ is_Ok (render data))
  /\ (status = 200 \/ status = 400 \/ status = 500)
  /\ (calls = [data] <-> data <> "" /\ PDF417_AVAILABLE = true)
  /\ (calls = [] \/ calls = [data])
  /\ (In ("success", JBool true) body <-> status = 200).
Proof.
  intros data. unfold generate_pdf417. fold data.
  destruct (String.eqb data "") eqn:Q.
  - apply String.eqb_eq in Q.
    repeat split; try tauto; try discriminate; try (intros (? & _); congruence).
    + intros [[= ?] | [[= ?] | []]].
  - apply String.eqb_neq in Q. destruct PDF417_AVAILABLE; cbn [negb].
    + destruct (render data) as [img|e] eqn:R; cbn.
      * repeat split; try tauto; try discriminate; eauto.
        exists img. reflexivity.
      * repeat split; try tauto; try discriminate; eauto.
        -- intros (_ & _ & [x X]). discriminate.
        -- intros [[= ?] | [[= ?] | []]].
    + repeat split; try tauto; try discriminate; eauto;
        try (intros (_ & ? & _); discriminate).
      * intros [_ ?]; discriminate.
      * intros [[= ?] | [[= ?] | []]].
Qed.

Lemma draw_row_squares y x cells :
  Forall (fun rect =>
            exists j, x <= j < x + Z.of_nat (length cells)
                      /\ rect = cell_square j y)
         (draw_row y x cells).
Proof.
  revert x. induction cells as [|bit cells IH]; intros x; cbn [draw_row].
  - constructor.
  - apply Forall_app. split.
    + destruct (negb (bit =? 0)); [|constructor].
      constructor; [|constructor]. exists x.
      split; [cbn [length]; rewrite Nat2Z.inj_succ; lia|].
      unfold cell_square, pixel_size.
      replace (x * 4 + 20 + 4) with (x * 4 + 24) by lia.
      replace (y * 4 + 20 + 4) with (y * 4 + 24) by lia. reflexivity.
    + eapply Forall_impl; [apply IH|].
      intros rect (j & B & E). exists j.
      split; [cbn [length]; rewrite Nat2Z.inj_succ; lia | exact E].
Qed.

Lemma draw_rows_squares y barcode :
  Forall (fun rect =>
            exists i j cells,
              In cells barcode
              /\ y <= i < y + Z.of_nat (length barcode)
              /\ 0 <= j < Z.of_nat (length cells)
              /\ rect = cell_square j i)
         (draw_rows y barcode).
Proof.
  revert y. induction barcode as [|cells barcode IH]; intros y; cbn [draw_rows].
  - constructor.
  - apply Forall_app. split.
    + eapply Forall_impl; [apply draw_row_squares|].
      intros rect (j & B & E). exists y, j, cells.
      repeat split; try lia;
        [now left | cbn [length]; rewrite Nat2Z.inj_succ; lia | exact E].
    + eapply Forall_impl; [apply IH|].
      intros rect (i & j & c & I & Bi & Bj & E). exists i, j, c.
      repeat split; try lia;
        [now right | cbn [length]; rewrite Nat2Z.inj_succ; lia | exact E].
Qed.

Lemma square_of_cell x y :
  (x * pixel_size + 20, y * pixel_size + 20,
   x * pixel_size + 20 + pixel_size, y * pixel_size + 20 + pixel_size)
  = cell_square x y.
Proof.
  unfold cell_square, pixel_size.
  replace (x * 4 + 20 + 4) with (x * 4 + 24) by lia.
  replace (y * 4 + 20 + 4) with (y * 4 + 24) by lia. reflexivity.
Qed.

(** The rectangles of a row are the squares of its cells that are not
    zero. *)
Lemma draw_row_In y x (cells : list Z) rect :
  In rect (draw_row y x cells)
  <-> exists j bit,
        cells !! j = Some bit /\ bit <> 0
        /\ rect = cell_square (x + Z.of_nat j) y.
Proof.
  revert x. induction cells as [|b cells IH]; intros x; cbn [draw_row].
  - split; [intros [] | intros (j & bit & L & _)]. destruct j; discriminate.
  - rewrite in_app_iff, IH, square_of_cell. split.
    + intros [H | (j & bit & L & N & ->)].
      * destruct (b =? 0) eqn:Q; cbn [negb] in H; [destruct H|].
        destruct H as [<- | []]. exists 0%nat, b.
        split; [reflexivity | split; [lia|]]. f_equal. lia.
      * exists (S j), bit. split; [exact L | split; [exact N|]].
        f_equal. lia.
    + intros (j & bit & L & N & ->). destruct j as [|j].
      * left. injection L as ->.
        assert ((bit =? 0) = false) as -> by lia. cbn [negb].
        left. f_equal. lia.
      * right. exists j, bit. split; [exact L | split; [exact N|]].
        f_equal. lia.
Qed.

Lemma draw_rows_In y (barcode : list (list Z)) rect :
  In rect (draw_rows y barcode)
  <-> exists i j cells bit,
        barcode !! i = Some cells /\ cells !! j = Some bit /\ bit <> 0
        /\ rect = cell_square (Z.of_nat j) (y + Z.of_nat i).
Proof.
  revert y. induction barcode as [|row barcode IH]; intros y; cbn [draw_rows].
  - split; [intros [] | intros (i & j & c & bit & L & _)].
    destruct i; discriminate.
  - rewrite in_app_iff, IH, draw_row_In. split.
    + intros [(j & bit & L & N & ->) | (i & j & c & bit & L & Lc & N & ->)].
      * exists 0%nat, j, row, bit. repeat split; trivial.
        f_equal; lia.
      * exists (S i), j, c, bit. repeat split; trivial.
        f_equal; lia.
    + intros (i & j & c & bit & L & Lc & N & ->). destruct i as [|i].
      * left. injection L as ->. exists j, bit. repeat split; trivial.
        f_equal; lia.
      * right. exists i, j, c, bit. repeat split; trivial.
        f_equal; lia.
Qed.

(** X19: the rectangles drawn from a code matrix are exactly the squares
    [4j+20, 4i+20, 4j+24, 4i+24] of its cells that are not zero, [i] the
    row and [j] the column of the cell; and when no row is longer than the
    first, the corner coordinates of every rectangle lie between 20 and the
    width less 20, and between 20 and the height less 20. *)
Theorem barcode_squares_keep_margin (barcode : list (list Z)) :
  (forall rect,
     In rect (rectangles (draw_barcode barcode))
     <-> exists i j cells bit,
           barcode !! i = Some cells /\ cells !! j = Some bit /\ bit <> 0
           /\ rect = cell_square (Z.of_nat j) (Z.of_nat i))
  /\ ((forall cells, In cells barcode ->
         (length cells <= length (hd [] barcode))%nat) ->
      Forall (inside (draw_barcode barcode) 20)
             (rectangles (draw_barcode barcode))).
Proof.
  split.
  - intros rect. unfold draw_barcode. cbn [rectangles].
    rewrite draw_rows_In. reflexivity.
  - intros H. unfold draw_barcode. cbn [rectangles].
    eapply Forall_impl; [apply draw_rows_squares|].
    intros rect (i & j & cells & I & Bi & Bj & ->).
    specialize (H cells I).
    unfold inside, cell_square, pixel_size. cbn [width height].
    destruct barcode as [|first rest]; [destruct I|]. cbn [hd] in H.
    repeat split; lia.
Qed.

Lemma barcode_squares_keep_margin_witness :
  let barcode := [[1; 0; 7]; [0; 5]] in
  rectangles (draw_barcode barcode)
    = [(20, 20, 24, 24); (28, 20, 32, 24); (24, 24, 28, 28)]
  /\ width (draw_barcode barcode) = 52 /\ height (draw_barcode barcode) = 48
  /\ In (cell_square 1 1) (rectangles (draw_barcode barcode))
  /\ Forall (inside (draw_barcode barcode) 20) (rectangles (draw_barcode barcode)).
Proof.
  intros barcode.
  split; [reflexivity | split; [reflexivity | split; [reflexivity|]]].
  destruct (barcode_squares_keep_margin barcode) as [Sq M].
  split.
  - apply Sq. exists 1%nat, 1%nat, [0; 5], 5.
    repeat split; try reflexivity. lia.
  - apply M. intros cells [<- | [<- | []]]; simpl; lia.
Defined.

End BarcodeMore.
